(** * Shallow embedding of the DAQ interface core (src/app.py)

    The Streamlit app loads uploaded CSV/Excel files into DataFrames
    ([load_dataframes]), merges their column indexes ([pd.concat]), builds
    one plot configuration per slot from selection widgets ([main]) and
    renders each configuration with Plotly ([plot_data]).

    Effects are modelled with a small monad [Py]: a computation either
    raises a Python exception or returns a value, and it appends the
    messages shown with [st.error] to a diagnostic log.  The pandas
    decoders and the Streamlit selection widget are external; they are
    section variables, constrained only by their documented contract. *)

From Stdlib Require Import String List Bool Arith ZArith Lia.
Import ListNotations.
Open Scope string_scope.

(** ** Data model *)

(** A cell value of a DataFrame. *)
Inductive Scalar : Type :=
| SInt (z : Z)
| SStr (s : string).

(** A DataFrame is an ordered sequence of named columns. *)
Definition Column : Type := (string * list Scalar)%type.
Definition DataFrame : Type := list Column.

(** [df.columns] *)
Definition df_columns (df : DataFrame) : list string := map fst df.

(** Python exceptions raised by the code and by the libraries it calls. *)
Inductive Exn : Type :=
| KeyError (k : option string)
| ValueError (msg : string)
| ParserError (msg : string).

(** [str(e)] *)
Definition exn_str (e : Exn) : string :=
  match e with
  | KeyError None => "None"
  | KeyError (Some k) => "'" ++ k ++ "'"
  | ValueError m => m
  | ParserError m => m
  end.

(** Messages displayed with [st.error], one constructor per call site. *)
Inductive Diag : Type :=
| UnsupportedFileType (name : string)          (* app.py line 24 *)
| ErrorLoading (name : string) (e : Exn)       (* app.py line 28 *)
| UnsupportedPlotType (plot_type : string).    (* app.py line 50 *)

(** The text of each message, as the f-strings write it. *)
Definition diag_text (d : Diag) : string :=
  match d with
  | UnsupportedFileType n => "Unsupported file type: " ++ n
  | ErrorLoading n e => "Error loading " ++ n ++ ": " ++ exn_str e
  | UnsupportedPlotType p => "Unsupported plot type: " ++ p
  end.

(** The uploaded file a diagnostic is attributed to, if any. *)
Definition diag_file (d : Diag) : option string :=
  match d with
  | UnsupportedFileType n => Some n
  | ErrorLoading n _ => Some n
  | UnsupportedPlotType _ => None
  end.

(** ** The effect monad: exceptions and the [st.error] log *)

Definition Py (A : Type) : Type := list Diag -> (Exn + A) * list Diag.

Definition ret {A} (a : A) : Py A := fun log => (inr a, log).

Definition bind {A B} (m : Py A) (k : A -> Py B) : Py B :=
  fun log =>
    match m log with
    | (inl e, log') => (inl e, log')
    | (inr a, log') => k a log'
    end.

Definition raise {A} (e : Exn) : Py A := fun log => (inl e, log).

(** Turn the result of a library call into a computation. *)
Definition lift {A} (r : Exn + A) : Py A := fun log => (r, log).

(** [st.error(msg)] *)
Definition st_error (d : Diag) : Py unit := fun log => (inr tt, (log ++ [d])%list).

(** [try: m except Exception as e: h(e)] *)
Definition try_except {A} (m : Py A) (h : Exn -> Py A) : Py A :=
  fun log =>
    match m log with
    | (inl e, log') => h e log'
    | r => r
    end.

Notation "x <- m ;; k" := (bind m (fun x => k))
  (at level 61, m at next level, right associativity).

(** A [for] loop over a list threading one local variable. *)
Fixpoint for_each {A S} (body : S -> A -> Py S) (xs : list A) (s : S) : Py S :=
  match xs with
  | [] => ret s
  | x :: xs' => s' <- body s x ;; for_each body xs' s'
  end.

(** ** Python dictionaries (insertion ordered) *)

Definition PyDict (V : Type) : Type := list (string * V).

(** [d[k] = v]: an existing key keeps its position and gets the new value;
    a new key is appended. *)
Fixpoint dict_set {V} (k : string) (v : V) (d : PyDict V) : PyDict V :=
  match d with
  | [] => [(k, v)]
  | (k', v') :: d' =>
      if String.eqb k k' then (k, v) :: d' else (k', v') :: dict_set k v d'
  end.

Fixpoint dict_get {V} (k : string) (d : PyDict V) : option V :=
  match d with
  | [] => None
  | (k', v') :: d' => if String.eqb k k' then Some v' else dict_get k d'
  end.

Definition dict_keys {V} (d : PyDict V) : list string := map fst d.
Definition dict_values {V} (d : PyDict V) : list V := map snd d.

(** [s.endswith(suffix)] *)
Definition endswith (s suffix : string) : bool :=
  let n := String.length s in
  let m := String.length suffix in
  Nat.leb m n && String.eqb (substring (n - m) m s) suffix.

(** Python's [str()] of a value that is a string or [None]. *)
Definition py_str (v : option string) : string :=
  match v with Some s => s | None => "None" end.

(** Python's [v == s] for a string-or-[None] value and a string. *)
Definition py_eq (v : option string) (s : string) : bool :=
  match v with Some s' => String.eqb s' s | None => false end.

(** [d[k]] on a dict or on the columns of a DataFrame: [KeyError] when the
    key is absent (or is [None]). *)
Definition getitem {V} (d : PyDict V) (k : option string) : Exn + V :=
  match k with
  | None => inl (KeyError None)
  | Some k' =>
      match dict_get k' d with
      | Some v => inr v
      | None => inl (KeyError (Some k'))
      end
  end.

(** ** The Plotly objects used by [plot_data] *)

Module go.

(** [go.Scatter(x=..., y=..., mode=...)] *)
Record Scatter : Type := { x : list Scalar; y : list Scalar; mode : string }.

(** The axis settings passed as [xaxis=dict(...)] / [yaxis=dict(...)]. *)
Record Axis : Type := { gridcolor : option string; zerolinecolor : option string }.

(** The layout properties the code sets; [None] is an unset property
    (Plotly's default template applies). *)
Record Layout : Type := {
  title : option string;
  xaxis_title : option string;
  yaxis_title : option string;
  plot_bgcolor : option string;
  paper_bgcolor : option string;
  font_color : option string;
  xaxis : Axis;
  yaxis : Axis
}.

Record Figure : Type := { data : list Scatter; layout : Layout }.

Definition default_axis : Axis := {| gridcolor := None; zerolinecolor := None |}.

Definition default_layout : Layout := {|
  title := None; xaxis_title := None; yaxis_title := None;
  plot_bgcolor := None; paper_bgcolor := None; font_color := None;
  xaxis := default_axis; yaxis := default_axis
|}.

(** [go.Figure(data=traces)]; [go.Figure()] is [Figure_ []]. *)
Definition Figure_ (traces : list Scatter) : Figure :=
  {| data := traces; layout := default_layout |}.

(** [fig.update_layout(...)] with the keyword arguments used in app.py. *)
Definition update_layout (fig : Figure)
    (title xaxis_title yaxis_title plot_bgcolor paper_bgcolor font_color : option string)
    (xaxis yaxis : Axis) : Figure :=
  {| data := data fig;
     layout := {| title := title; xaxis_title := xaxis_title;
                  yaxis_title := yaxis_title; plot_bgcolor := plot_bgcolor;
                  paper_bgcolor := paper_bgcolor; font_color := font_color;
                  xaxis := xaxis; yaxis := yaxis |} |}.

End go.

(** ** Renderer: [plot_data] (app.py lines 31-63) *)

Definition plot_data (data : DataFrame) (x_axis y_axis : option string)
    (plot_title : string) (plot_type : option string) : Py go.Figure :=
  fig <- (if py_eq plot_type "Line Plot" then
            xs <- lift (getitem data x_axis) ;;
            ys <- lift (getitem data y_axis) ;;
            ret (Some (go.Figure_ [{| go.x := xs; go.y := ys; go.mode := "lines" |}]))
          else if py_eq plot_type "Scatter Plot" then
            xs <- lift (getitem data x_axis) ;;
            ys <- lift (getitem data y_axis) ;;
            ret (Some (go.Figure_ [{| go.x := xs; go.y := ys; go.mode := "markers" |}]))
          else
            _ <- st_error (UnsupportedPlotType (py_str plot_type)) ;;
            ret None) ;;
  match fig with
  | None => ret (go.Figure_ [])  (* return an empty figure *)
  | Some fig =>
      ret (go.update_layout fig (Some plot_title) x_axis y_axis
             (Some "#111111") (Some "#111111") (Some "#FFFFFF")
             {| go.gridcolor := Some "#4a4a4a"; go.zerolinecolor := Some "#4a4a4a" |}
             {| go.gridcolor := Some "#4a4a4a"; go.zerolinecolor := Some "#4a4a4a" |})
  end.

(** ** CatalogBuilder: [pd.concat(dataframes.values(), ignore_index=True).columns]

    pandas combines the column indexes of the concatenated frames with an
    outer join and [sort=False]: when all indexes are equal the first one is
    kept; otherwise the result is the first index with its duplicates
    removed, followed by the values of the other indexes that are not yet
    present, each once, in order of first appearance.  An empty list of
    frames raises [ValueError].  Only the column index of the result is
    modelled. *)

Fixpoint list_eqb (l1 l2 : list string) : bool :=
  match l1, l2 with
  | [], [] => true
  | a :: l1', b :: l2' => String.eqb a b && list_eqb l1' l2'
  | _, _ => false
  end.

Definition mem (s : string) (l : list string) : bool := existsb (String.eqb s) l.

(** Append the values of [xs] that are not in [acc], each once. *)
Fixpoint append_new (acc xs : list string) : list string :=
  match xs with
  | [] => acc
  | x :: xs' => if mem x acc then append_new acc xs' else append_new (acc ++ [x]) xs'
  end.

(** [Index.unique()] *)
Definition unique (l : list string) : list string := append_new [] l.

Definition pd_concat_columns (frames : list DataFrame) : Exn + list string :=
  match frames with
  | [] => inl (ValueError "No objects to concatenate")
  | f0 :: rest =>
      if forallb (fun f => list_eqb (df_columns f) (df_columns f0)) rest
      then inr (df_columns f0)
      else inr (append_new (unique (df_columns f0)) (flat_map df_columns rest))
  end.

(** ** FileLoader: [load_dataframes] (app.py lines 6-29) *)

Section App.

(** The content of an uploaded file and the pandas decoders applied to it. *)
Variable Content : Type.
Variable read_csv : Content -> Exn + DataFrame.
Variable read_excel : Content -> Exn + DataFrame.

(** [st.selectbox(label, options, key=key)] returns the value of the widget
    with that key; the key is the f-string [f"<prefix>_{i}"], kept as the
    pair (prefix, i). *)
Variable selectbox : (string * nat) -> list string -> option string.

Record UploadedFile : Type := { name : string; content : Content }.

(** The body of the [for] loop, one uploaded file. *)
Definition load_one (dataframes : PyDict DataFrame) (uploaded_file : UploadedFile)
  : Py (PyDict DataFrame) :=
  try_except
    (df <- (if endswith (name uploaded_file) ".csv" then
              df <- lift (read_csv (content uploaded_file)) ;; ret (Some df)
            else if endswith (name uploaded_file) ".xlsx" then
              df <- lift (read_excel (content uploaded_file)) ;; ret (Some df)
            else
              _ <- st_error (UnsupportedFileType (name uploaded_file)) ;;
              ret None) ;;
     match df with
     | None => ret dataframes  (* continue *)
     | Some df => ret (dict_set (name uploaded_file) df dataframes)
     end)
    (fun e =>
       _ <- st_error (ErrorLoading (name uploaded_file) e) ;;
       ret dataframes).

Definition load_dataframes (uploaded_files : list UploadedFile) : Py (PyDict DataFrame) :=
  for_each load_one uploaded_files [].

(** ** PlotConfigStore: the per-slot configuration built in [main]
    (app.py lines 105-134) *)

Record PlotConfig : Type := {
  file_name : option string;
  x_axis : option string;
  y_axis : option string;
  plot_type : option string;
  df : DataFrame;
  title : string
}.

(** One iteration of [for i in range(num_plots)] (the subheader and the
    column layout only display and are not modelled). *)
Definition build_config (dataframes : PyDict DataFrame) (i : nat) : Py PlotConfig :=
  let file_name := selectbox ("file_name", i) (dict_keys dataframes) in
  d <- lift (getitem dataframes file_name) ;;
  let x_axis := selectbox ("x_axis", i) (df_columns d) in
  let y_axis := selectbox ("y_axis", i) (df_columns d) in
  let plot_type := selectbox ("plot_type", i) ["Line Plot"; "Scatter Plot"] in
  ret {| file_name := file_name; x_axis := x_axis; y_axis := y_axis;
         plot_type := plot_type; df := d;
         title := py_str file_name ++ " - " ++ py_str y_axis ++ " vs " ++ py_str x_axis |}.

Definition build_configs (dataframes : PyDict DataFrame) (num_plots : nat)
  : Py (list PlotConfig) :=
  for_each (fun plot_configs i =>
              c <- build_config dataframes i ;; ret (plot_configs ++ [c])%list)
           (seq 0 num_plots) [].

(** The loop of app.py lines 144-147: one figure per configuration. *)
Definition render_one (figs : list go.Figure) (config : PlotConfig) : Py (list go.Figure) :=
  fig <- plot_data (df config) (x_axis config) (y_axis config)
           (title config) (plot_type config) ;;
  ret (figs ++ [fig])%list.

Definition render_all (plot_configs : list PlotConfig) : Py (list go.Figure) :=
  for_each render_one plot_configs [].

(** What one run of [main] shows. *)
Inductive Outcome : Type :=
| Idle  (* no file uploaded: welcome page *)
| Shown (available_columns : list string) (plot_configs : list PlotConfig)
        (figures : list go.Figure).

(** One run of [main] (app.py lines 88-149) for the uploaded files, the
    selected number of plots and the state of the "Generate Plots" button. *)
Definition main (uploaded_files : list UploadedFile) (num_plots : nat)
    (generate_clicked : bool) : Py Outcome :=
  match uploaded_files with
  | [] => ret Idle
  | _ :: _ =>
      dataframes <- load_dataframes uploaded_files ;;
      available_columns <- lift (pd_concat_columns (dict_values dataframes)) ;;
      plot_configs <- build_configs dataframes num_plots ;;
      figures <- (if generate_clicked then render_all plot_configs else ret []) ;;
      ret (Shown available_columns plot_configs figures)
  end.

End App.

Arguments name {Content}.
Arguments content {Content}.
Arguments load_one {Content} read_csv read_excel dataframes uploaded_file.
Arguments load_dataframes {Content} read_csv read_excel uploaded_files.
Arguments main {Content} read_csv read_excel selectbox uploaded_files num_plots generate_clicked.

(** ** Vocabulary of the properties *)

Section Vocabulary.

Variable Content : Type.
Variable read_csv : Content -> Exn + DataFrame.
Variable read_excel : Content -> Exn + DataFrame.

(** What the loader does with one file: [None] for an unrecognised
    extension, otherwise the result of the decoder chosen by the extension. *)
Definition decoded (f : UploadedFile Content) : option (Exn + DataFrame) :=
  if endswith (name f) ".csv" then Some (read_csv (content f))
  else if endswith (name f) ".xlsx" then Some (read_excel (content f))
  else None.

Definition loads_ok (f : UploadedFile Content) : bool :=
  match decoded f with Some (inr _) => true | _ => false end.

(** The files with a recognised extension whose content decoded, keyed by
    file name, in upload order. *)
Definition successes (fs : list (UploadedFile Content)) : PyDict DataFrame :=
  flat_map (fun f => match decoded f with
                     | Some (inr d) => [(name f, d)]
                     | _ => []
                     end) fs.

(** The diagnostics of the failing files, in upload order. *)
Definition failures (fs : list (UploadedFile Content)) : list Diag :=
  flat_map (fun f => match decoded f with
                     | None => [UnsupportedFileType (name f)]
                     | Some (inl e) => [ErrorLoading (name f) e]
                     | Some (inr _) => []
                     end) fs.

End Vocabulary.

Arguments decoded {Content} read_csv read_excel f.
Arguments loads_ok {Content} read_csv read_excel f.
Arguments successes {Content} read_csv read_excel fs.
Arguments failures {Content} read_csv read_excel fs.

(** The number of diagnostics attributed to the file named [n]. *)
Definition count_naming (n : string) (diags : list Diag) : nat :=
  length (filter (fun d => py_eq (diag_file d) n) diags).

(** The fixed dark theme of app.py lines 57-61. *)
Definition has_dark_theme (l : go.Layout) : bool :=
  py_eq (go.plot_bgcolor l) "#111111" && py_eq (go.paper_bgcolor l) "#111111"
  && py_eq (go.font_color l) "#FFFFFF"
  && py_eq (go.gridcolor (go.xaxis l)) "#4a4a4a"
  && py_eq (go.zerolinecolor (go.xaxis l)) "#4a4a4a"
  && py_eq (go.gridcolor (go.yaxis l)) "#4a4a4a"
  && py_eq (go.zerolinecolor (go.yaxis l)) "#4a4a4a".

(** The documented contract of [st.selectbox] with the default [index=0]:
    the returned value is one of the options, and [None] exactly when there
    is no option. *)
Definition selectbox_contract (selectbox : (string * nat) -> list string -> option string)
  : Prop :=
  forall k opts,
    match selectbox k opts with
    | Some v => In v opts
    | None => opts = []
    end.

(** A concrete Streamlit session: the values last chosen in the widgets,
    by key.  A value that is not among the current options is dropped and
    the widget falls back to its first option. *)
Definition st_selectbox (session : list ((string * nat) * string))
    (k : string * nat) (opts : list string) : option string :=
  let chosen :=
    find (fun e => String.eqb (fst (fst e)) (fst k) && Nat.eqb (snd (fst e)) (snd k))
         session in
  match chosen with
  | Some (_, v) => if mem v opts then Some v else hd_error opts
  | None => hd_error opts
  end.

(** Concrete uploads for the examples: the content of a file is what the
    pandas decoder returns for it. *)
Definition decode_as_given (c : Exn + DataFrame) : Exn + DataFrame := c.

Definition upload (n : string) (c : Exn + DataFrame) : UploadedFile (Exn + DataFrame) :=
  {| name := n; content := c |}.

(** The DataFrame of the last file named [n] that loaded, in upload order. *)
Fixpoint last_decoded {Content} (read_csv read_excel : Content -> Exn + DataFrame)
    (n : string) (fs : list (UploadedFile Content)) : option DataFrame :=
  match fs with
  | [] => None
  | f :: fs' =>
      match last_decoded read_csv read_excel n fs' with
      | Some d => Some d
      | None =>
          if String.eqb (name f) n then
            match decoded read_csv read_excel f with
            | Some (inr d) => Some d
            | _ => None
            end
          else None
      end
  end.

(** [k in df.columns] for a string-or-[None] key. *)
Definition has_column (d : DataFrame) (k : option string) : bool :=
  match k with
  | Some k' => match dict_get k' d with Some _ => true | None => false end
  | None => false
  end.

(** ** The real-time plotting script (src/real-time.py) *)

Module RealTime.

(** The outcome of [pd.read_csv("your_data.csv")]: the file is missing,
    pandas raises another exception, or it returns a DataFrame. *)
Inductive CsvRead : Type :=
| FileNotFoundError
| ReadRaised (e : Exn)
| ReadFrame (d : DataFrame).

(** [l[-n:]] *)
Definition tail_slice {A} (n : nat) (l : list A) : list A := skipn (length l - n) l.

(** [read_new_data] (real-time.py lines 13-20): only [FileNotFoundError]
    is caught. *)
Definition read_new_data (r : CsvRead) : Py (list Scalar * list Scalar) :=
  match r with
  | FileNotFoundError => ret ([], [])
  | ReadRaised e => raise e
  | ReadFrame d =>
      ts <- lift (getitem d (Some "timestamp")) ;;
      vs <- lift (getitem d (Some "value")) ;;
      ret (tail_slice 10 ts, tail_slice 10 vs)
  end.

(** A matplotlib [Axes]: its plotted lines, axis labels and title. *)
Record Axes : Type := {
  lines : list (list Scalar * list Scalar);
  xlabel : string;
  ylabel : string;
  ax_title : string
}.

(** [ax.clear()] removes the lines and resets labels and title. *)
Definition ax_clear (a : Axes) : Axes :=
  {| lines := []; xlabel := ""; ylabel := ""; ax_title := "" |}.

(** [ax.plot(x, y)] adds one line. *)
Definition ax_plot (a : Axes) (x y : list Scalar) : Axes :=
  {| lines := (lines a ++ [(x, y)])%list; xlabel := xlabel a; ylabel := ylabel a;
     ax_title := ax_title a |}.

Definition set_xlabel (a : Axes) (l : string) : Axes :=
  {| lines := lines a; xlabel := l; ylabel := ylabel a; ax_title := ax_title a |}.
Definition set_ylabel (a : Axes) (l : string) : Axes :=
  {| lines := lines a; xlabel := xlabel a; ylabel := l; ax_title := ax_title a |}.
Definition set_title (a : Axes) (t : string) : Axes :=
  {| lines := lines a; xlabel := xlabel a; ylabel := ylabel a; ax_title := t |}.

(** The objects shared between [App] and the animation callback: the two
    lists passed in [fargs] are the App's own [x_data] and [y_data] and are
    extended in place on every frame. *)
Record AppState : Type := { x_data : list Scalar; y_data : list Scalar; ax : Axes }.

(** [App.__init__]: empty lists and a fresh axes. *)
Definition app_init : AppState :=
  {| x_data := []; y_data := [];
     ax := {| lines := []; xlabel := ""; ylabel := ""; ax_title := "" |} |}.

(** [update_plot(i, x_data, y_data, ax)] (real-time.py lines 22-30); the
    frame number [i] is not used by the code. *)
Definition update_plot (i : nat) (r : CsvRead) (s : AppState) : Py AppState :=
  xy <- read_new_data r ;;
  let '(x, y) := xy in
  let xd := (x_data s ++ x)%list in
  let yd := (y_data s ++ y)%list in
  let a := ax_plot (ax_clear (ax s)) xd yd in
  let a := set_xlabel a "Timestamp" in
  let a := set_ylabel a "Value" in
  let a := set_title a "Real-time Data Plot" in
  ret {| x_data := xd; y_data := yd; ax := a |}.

(** Successive animation frames [i, i+1, ...], one read of the file each. *)
Fixpoint animate (i : nat) (reads : list CsvRead) (s : AppState) : Py AppState :=
  match reads with
  | [] => ret s
  | r :: rs => s' <- update_plot i r s ;; animate (S i) rs s'
  end.

End RealTime.

(** The end-to-end scenario: [a.csv] with columns t, v1 and [b.csv] with
    columns t, v2; slot 0 plots v1 against t as a line, slot 1 plots v2
    against t as markers. *)
Definition frame_a : DataFrame := [("t", [SInt 0; SInt 1]); ("v1", [SInt 5; SInt 7])].
Definition frame_b : DataFrame := [("t", [SInt 0; SInt 1]); ("v2", [SInt 2; SInt 3])].

Definition scenario_uploads : list (UploadedFile (Exn + DataFrame)) :=
  [upload "a.csv" (inr frame_a); upload "b.csv" (inr frame_b)].

Definition scenario_session : list ((string * nat) * string) :=
  [(("file_name", 0), "a.csv"); (("x_axis", 0), "t"); (("y_axis", 0), "v1");
   (("plot_type", 0), "Line Plot");
   (("file_name", 1), "b.csv"); (("x_axis", 1), "t"); (("y_axis", 1), "v2");
   (("plot_type", 1), "Scatter Plot")].

(** An uploaded Excel workbook whose sheet is empty: [pd.read_excel]
    returns a DataFrame without columns. *)
Definition empty_sheet_config : PlotConfig := {|
  file_name := Some "empty.xlsx"; x_axis := None; y_axis := None;
  plot_type := Some "Line Plot"; df := [];
  title := "empty.xlsx - None vs None" |}.

(** A [your_data.csv] with twelve rows of [timestamp] and [value]. *)
Definition sensor_log : DataFrame :=
  [("timestamp", map (fun k => SInt (Z.of_nat k)) (seq 0 12));
   ("value", map (fun k => SInt (Z.of_nat (k * k))) (seq 0 12))].

(** * Properties *)

(** ** Generic lemmas on the monad, the loop and dictionaries *)

Lemma for_each_cons {A S} (body : S -> A -> Py S) x xs s log :
  for_each body (x :: xs) s log =
  match body s x log with
  | (inl e, log') => (inl e, log')
  | (inr s', log') => for_each body xs s' log'
  end.
Proof. reflexivity. Qed.

Lemma dict_keys_set_fresh {V} (k : string) (v : V) (d : PyDict V) :
  ~ In k (dict_keys d) -> dict_set k v d = (d ++ [(k, v)])%list.
Proof.
  induction d as [| [k' v'] d IH]; simpl; intros Hk; [reflexivity |].
  destruct (String.eqb_spec k k') as [-> | Hne].
  - exfalso. apply Hk. now left.
  - rewrite IH; [reflexivity |]. intros H. apply Hk. now right.
Qed.

Lemma count_naming_app n l1 l2 :
  count_naming n (l1 ++ l2) = count_naming n l1 + count_naming n l2.
Proof. unfold count_naming. now rewrite filter_app, length_app. Qed.

Lemma py_eq_some_iff s t : py_eq (Some s) t = true <-> s = t.
Proof. simpl. apply String.eqb_eq. Qed.

(** ** FileLoader *)

Section LoaderProofs.

Variable Content : Type.
Variables read_csv read_excel : Content -> Exn + DataFrame.


(** One iteration of the loader loop, by cases on the extension and the
    decoder's outcome. *)
Lemma load_one_cases d f log :
  (load_one read_csv read_excel) d f log =
  match decoded read_csv read_excel f with
  | None => (inr d, log ++ [UnsupportedFileType (name f)])
  | Some (inl e) => (inr d, log ++ [ErrorLoading (name f) e])
  | Some (inr df) => (inr (dict_set (name f) df d), log)
  end%list.
Proof.
  unfold load_one, decoded, try_except, bind, lift, ret, st_error.
  destruct (endswith (name f) ".csv").
  - destruct (read_csv (content f)); reflexivity.
  - destruct (endswith (name f) ".xlsx").
    + destruct (read_excel (content f)); reflexivity.
    + reflexivity.
Qed.

Lemma load_loop_unique_names fs :
  forall d log,
    NoDup (map name fs) ->
    (forall f, In f fs -> ~ In (name f) (dict_keys d)) ->
    for_each (load_one read_csv read_excel) fs d log =
    (inr (d ++ successes read_csv read_excel fs),
     log ++ failures read_csv read_excel fs)%list.
Proof.
  induction fs as [| f fs IH]; intros d log Hnd Hfresh.
  - simpl. now rewrite !app_nil_r.
  - rewrite for_each_cons, load_one_cases.
    simpl in Hnd. apply NoDup_cons_iff in Hnd as [Hf Hnd].
    unfold successes, failures; simpl; fold (successes read_csv read_excel fs);
      fold (failures read_csv read_excel fs).
    destruct (decoded read_csv read_excel f) as [[e | df] |].
    + rewrite IH by (auto; intros g Hg; apply Hfresh; now right).
      now rewrite <- app_assoc.
    + rewrite dict_keys_set_fresh by (apply Hfresh; now left).
      rewrite IH.
      * now rewrite <- app_assoc.
      * exact Hnd.
      * intros g Hg. unfold dict_keys. rewrite map_app. simpl.
        intros Hin. apply in_app_or in Hin as [Hin | [Heq | []]].
        -- exact (Hfresh g (or_intror Hg) Hin).
        -- apply Hf. rewrite Heq. now apply in_map.
    + rewrite IH by (auto; intros g Hg; apply Hfresh; now right).
      now rewrite <- app_assoc.
Qed.

Lemma count_naming_failures_absent n fs :
  (forall g, In g fs -> name g <> n) ->
  count_naming n (failures read_csv read_excel fs) = 0.
Proof.
  induction fs as [| g fs IH]; intros Hn; [reflexivity |].
  unfold failures; simpl; fold (failures read_csv read_excel fs).
  rewrite count_naming_app, IH by (intros h Hh; apply Hn; now right).
  assert (Hg : String.eqb (name g) n = false)
    by (apply String.eqb_neq; apply Hn; now left).
  unfold count_naming.
  destruct (decoded read_csv read_excel g) as [[e | df] |]; simpl; rewrite ?Hg; reflexivity.
Qed.

Lemma count_naming_failures fs f :
  NoDup (map name fs) -> In f fs ->
  count_naming (name f) (failures read_csv read_excel fs) =
  if loads_ok read_csv read_excel f then 0 else 1.
Proof.
  induction fs as [| g fs IH]; intros Hnd Hin; [destruct Hin |].
  simpl in Hnd. apply NoDup_cons_iff in Hnd as [Hg Hnd].
  unfold failures; simpl; fold (failures read_csv read_excel fs).
  rewrite count_naming_app.
  destruct Hin as [-> | Hin].
  - rewrite count_naming_failures_absent, Nat.add_0_r.
    + unfold loads_ok, count_naming.
      destruct (decoded read_csv read_excel f) as [[e | df] |]; simpl; rewrite ?String.eqb_refl; reflexivity.
    + intros h Hh Heq. apply Hg. rewrite <- Heq. now apply in_map.
  - rewrite IH by assumption.
    assert (Hne : String.eqb (name g) (name f) = false).
    { apply String.eqb_neq. intros Heq. apply Hg. rewrite Heq. now apply in_map. }
    unfold count_naming at 1.
    destruct (decoded read_csv read_excel g) as [[e | df] |]; simpl; rewrite ?Hne; reflexivity.
Qed.

Lemma failures_attributed fs d :
  In d (failures read_csv read_excel fs) ->
  exists f, In f fs /\ diag_file d = Some (name f).
Proof.
  unfold failures. rewrite in_flat_map. intros [f [Hf Hd]].
  exists f. split; [exact Hf |].
  destruct (decoded read_csv read_excel f) as [[e | df] |]; simpl in Hd;
    destruct Hd as [<- | []] || destruct Hd; reflexivity.
Qed.

Lemma successes_all_fail fs :
  (forall f, In f fs -> loads_ok read_csv read_excel f = false) ->
  successes read_csv read_excel fs = [].
Proof.
  induction fs as [| f fs IH]; intros Hf; [reflexivity |].
  unfold successes; simpl; fold (successes read_csv read_excel fs).
  rewrite IH by (intros g Hg; apply Hf; now right).
  specialize (Hf f (or_introl eq_refl)). unfold loads_ok in Hf.
  destruct (decoded read_csv read_excel f) as [[e | df] |]; [reflexivity | discriminate | reflexivity].
Qed.

End LoaderProofs.

Lemma load_loop_all_fail {Content} (read_csv read_excel : Content -> Exn + DataFrame) fs :
  forall d log,
    (forall f, In f fs -> loads_ok read_csv read_excel f = false) ->
    for_each (load_one read_csv read_excel) fs d log =
    (inr d, log ++ failures read_csv read_excel fs)%list.
Proof.
  induction fs as [| f fs IH]; intros d log Hf.
  - simpl. now rewrite app_nil_r.
  - rewrite for_each_cons, load_one_cases.
    unfold failures; simpl; fold (failures read_csv read_excel fs).
    assert (Hf0 := Hf f (or_introl eq_refl)). unfold loads_ok in Hf0.
    destruct (decoded read_csv read_excel f) as [[e | df] |]; try discriminate;
      rewrite IH by (intros g Hg; apply Hf; now right); now rewrite <- app_assoc.
Qed.

Section LoaderClaims.

Variable Content : Type.
Variables read_csv read_excel : Content -> Exn + DataFrame.
Variable selectbox : (string * nat) -> list string -> option string.

(** Claim C1.  For uploads with pairwise distinct names, [load_dataframes]
    does not raise and returns exactly the files whose extension is
    recognised and whose content decoded, keyed by name in upload order;
    the diagnostics it adds name exactly the failing files, one each, and
    nothing else; when every file fails the mapping is empty. *)
Theorem load_dataframes_keeps_exactly_decoded_files fs log :
  NoDup (map name fs) ->
  exists diags,
    load_dataframes read_csv read_excel fs log =
      (inr (successes read_csv read_excel fs), log ++ diags)%list
    /\ (forall f, In f fs ->
          count_naming (name f) diags =
          if loads_ok read_csv read_excel f then 0 else 1)
    /\ (forall d, In d diags -> exists f, In f fs /\ diag_file d = Some (name f))
    /\ ((forall f, In f fs -> loads_ok read_csv read_excel f = false) ->
        load_dataframes read_csv read_excel fs log = (inr [], log ++ diags)%list).
Proof.
  intros Hnd. exists (failures read_csv read_excel fs).
  assert (Hrun : load_dataframes read_csv read_excel fs log =
                 (inr (successes read_csv read_excel fs),
                  log ++ failures read_csv read_excel fs)%list).
  { unfold load_dataframes. apply load_loop_unique_names; [exact Hnd |].
    intros f _ []. }
  split; [exact Hrun |]. split; [| split].
  - intros f Hf. now apply count_naming_failures.
  - apply failures_attributed.
  - intros Hall. rewrite Hrun, successes_all_fail by exact Hall. reflexivity.
Qed.

(** Claim C10.  A file whose name ends neither with ".csv" nor with ".xlsx"
    (case-sensitive suffix test) leaves the mapping unchanged and adds one
    "Unsupported file type" diagnostic naming it. *)
Theorem load_one_unrecognized_extension_skipped f d log :
  endswith (name f) ".csv" = false ->
  endswith (name f) ".xlsx" = false ->
  load_one read_csv read_excel d f log =
  (inr d, log ++ [UnsupportedFileType (name f)])%list.
Proof.
  intros Hcsv Hxlsx. rewrite load_one_cases. unfold decoded.
  now rewrite Hcsv, Hxlsx.
Qed.

(** Claim C2 (evaluated).  When files were uploaded but none of them
    loads, [main] does not reach a "no usable data" state: [pd.concat] on
    the empty list of DataFrames raises [ValueError], which nothing
    catches. *)
Theorem main_no_file_loads_raises fs n clicked log :
  fs <> [] ->
  (forall f, In f fs -> loads_ok read_csv read_excel f = false) ->
  main read_csv read_excel selectbox fs n clicked log =
  (inl (ValueError "No objects to concatenate"),
   log ++ failures read_csv read_excel fs)%list.
Proof.
  intros Hne Hall. destruct fs as [| f fs']; [contradiction |].
  unfold main, bind at 1.
  unfold load_dataframes. rewrite load_loop_all_fail by exact Hall.
  reflexivity.
Qed.

End LoaderClaims.

(** ** Witnesses of the FileLoader claims on concrete uploads *)


Lemma load_dataframes_keeps_exactly_decoded_files_witness :
  NoDup (map name [upload "a.csv" (inr frame_a);
                   upload "bad.csv" (inl (ParserError "Error tokenizing data"));
                   upload "notes.txt" (inr frame_b)])
  /\ exists diags,
    load_dataframes decode_as_given decode_as_given
      [upload "a.csv" (inr frame_a);
       upload "bad.csv" (inl (ParserError "Error tokenizing data"));
       upload "notes.txt" (inr frame_b)] [] =
      (inr (successes decode_as_given decode_as_given
              [upload "a.csv" (inr frame_a);
               upload "bad.csv" (inl (ParserError "Error tokenizing data"));
               upload "notes.txt" (inr frame_b)]), [] ++ diags)%list
    /\ (forall f, In f [upload "a.csv" (inr frame_a);
                        upload "bad.csv" (inl (ParserError "Error tokenizing data"));
                        upload "notes.txt" (inr frame_b)] ->
          count_naming (name f) diags =
          if loads_ok decode_as_given decode_as_given f then 0 else 1)
    /\ (forall d, In d diags ->
          exists f, In f [upload "a.csv" (inr frame_a);
                          upload "bad.csv" (inl (ParserError "Error tokenizing data"));
                          upload "notes.txt" (inr frame_b)]
                    /\ diag_file d = Some (name f))
    /\ ((forall f, In f [upload "a.csv" (inr frame_a);
                         upload "bad.csv" (inl (ParserError "Error tokenizing data"));
                         upload "notes.txt" (inr frame_b)] ->
           loads_ok decode_as_given decode_as_given f = false) ->
        load_dataframes decode_as_given decode_as_given
          [upload "a.csv" (inr frame_a);
           upload "bad.csv" (inl (ParserError "Error tokenizing data"));
           upload "notes.txt" (inr frame_b)] [] = (inr [], [] ++ diags)%list).
Proof.
  assert (Hnd : NoDup (map name [upload "a.csv" (inr frame_a);
                   upload "bad.csv" (inl (ParserError "Error tokenizing data"));
                   upload "notes.txt" (inr frame_b)])).
  { simpl. repeat constructor; simpl; intuition discriminate. }
  split; [exact Hnd |].
  apply load_dataframes_keeps_exactly_decoded_files. exact Hnd.
Defined.

Lemma load_one_unrecognized_extension_skipped_witness :
  endswith "DATA.CSV" ".csv" = false /\ endswith "DATA.CSV" ".xlsx" = false
  /\ endswith "data.xls" ".csv" = false /\ endswith "data.xls" ".xlsx" = false
  /\ load_one decode_as_given decode_as_given [] (upload "DATA.CSV" (inr frame_a)) [] =
     (inr [], [] ++ [UnsupportedFileType "DATA.CSV"])%list
  /\ load_one decode_as_given decode_as_given [] (upload "data.xls" (inr frame_a)) [] =
     (inr [], [] ++ [UnsupportedFileType "data.xls"])%list.
Proof.
  split; [reflexivity |]. split; [reflexivity |].
  split; [reflexivity |]. split; [reflexivity |].
  split.
  - apply (load_one_unrecognized_extension_skipped _ decode_as_given decode_as_given
             (upload "DATA.CSV" (inr frame_a))); reflexivity.
  - apply (load_one_unrecognized_extension_skipped _ decode_as_given decode_as_given
             (upload "data.xls" (inr frame_a))); reflexivity.
Defined.

Lemma main_no_file_loads_raises_witness :
  main decode_as_given decode_as_given (st_selectbox [])
    [upload "a.csv" (inl (ParserError "No columns to parse from file"))] 2 true [] =
  (inl (ValueError "No objects to concatenate"),
   [ErrorLoading "a.csv" (ParserError "No columns to parse from file")]).
Proof.
  apply (main_no_file_loads_raises _ decode_as_given decode_as_given (st_selectbox [])
           [upload "a.csv" (inl (ParserError "No columns to parse from file"))] 2 true []).
  - discriminate.
  - intros f [<- | []]. reflexivity.
Defined.

(** ** Renderer *)

Lemma plot_data_fallback data x_ax y_ax t pt log :
  py_eq pt "Line Plot" = false -> py_eq pt "Scatter Plot" = false ->
  plot_data data x_ax y_ax t pt log =
  (inr (go.Figure_ []), log ++ [UnsupportedPlotType (py_str pt)])%list.
Proof.
  intros Hl Hs. unfold plot_data, bind, st_error, ret. now rewrite Hl, Hs.
Qed.

(** Claim C4.  With a plot type that is neither "Line Plot" nor "Scatter
    Plot", [plot_data] does not raise, whatever the data and columns: it
    returns the empty figure [go.Figure()] and adds exactly one diagnostic,
    which names the plot type; in the rendering loop the figure list grows
    by that empty figure and the loop goes on. *)
Theorem plot_data_unsupported_mode data x_ax y_ax t pt log :
  py_eq pt "Line Plot" = false -> py_eq pt "Scatter Plot" = false ->
  plot_data data x_ax y_ax t pt log =
    (inr (go.Figure_ []), log ++ [UnsupportedPlotType (py_str pt)])%list
  /\ diag_text (UnsupportedPlotType (py_str pt)) = "Unsupported plot type: " ++ py_str pt
  /\ (forall figs config,
        plot_type config = pt ->
        render_one figs config log =
        (inr (figs ++ [go.Figure_ []]), log ++ [UnsupportedPlotType (py_str pt)])%list).
Proof.
  intros Hl Hs. split; [| split].
  - now apply plot_data_fallback.
  - reflexivity.
  - intros figs config <-. unfold render_one. unfold bind at 1.
    rewrite plot_data_fallback by assumption. reflexivity.
Qed.

(** Claim C5.  On columns present in the data, "Line Plot" and "Scatter
    Plot" give one trace over the same x and y values (the columns' values
    in row order) with the same layout (title, axis titles, theme); only
    the trace mode differs: "lines" against "markers". *)
Theorem plot_data_line_vs_scatter data x_ax y_ax t xs ys log :
  getitem data x_ax = inr xs -> getitem data y_ax = inr ys ->
  exists lay,
    plot_data data x_ax y_ax t (Some "Line Plot") log =
      (inr {| go.data := [{| go.x := xs; go.y := ys; go.mode := "lines" |}];
              go.layout := lay |}, log)
    /\ plot_data data x_ax y_ax t (Some "Scatter Plot") log =
      (inr {| go.data := [{| go.x := xs; go.y := ys; go.mode := "markers" |}];
              go.layout := lay |}, log)
    /\ go.title lay = Some t /\ go.xaxis_title lay = x_ax
    /\ go.yaxis_title lay = y_ax /\ has_dark_theme lay = true.
Proof.
  intros Hx Hy. unfold plot_data, bind, lift, ret. simpl py_eq.
  rewrite Hx, Hy. eexists. split; [reflexivity |]. split; [reflexivity |].
  repeat split.
Qed.

(** Claim C8, as stated, fails: the figure returned for an unrecognised
    plot type has Plotly's default layout, without the dark theme. *)
Lemma plot_data_theme_missing_on_fallback :
  ~ (forall data x_ax y_ax t pt log fig log',
        plot_data data x_ax y_ax t pt log = (inr fig, log') ->
        has_dark_theme (go.layout fig) = true).
Proof.
  intros H.
  specialize (H [] None None "t" (Some "Bar Plot") [] (go.Figure_ [])
                [UnsupportedPlotType "Bar Plot"] eq_refl).
  vm_compute in H. discriminate H.
Qed.

(** Claim C8, corrected.  Every figure [plot_data] returns for "Line Plot"
    or "Scatter Plot" carries the fixed dark theme (#111111 plot and paper
    background, #FFFFFF font, #4a4a4a grid and zero lines), whatever the
    data, columns and title; for any other plot type the returned figure is
    the empty [go.Figure()] with the default layout. *)
Theorem plot_data_dark_theme data x_ax y_ax t pt log fig log' :
  plot_data data x_ax y_ax t pt log = (inr fig, log') ->
  (py_eq pt "Line Plot" || py_eq pt "Scatter Plot" = true ->
     has_dark_theme (go.layout fig) = true)
  /\ (py_eq pt "Line Plot" || py_eq pt "Scatter Plot" = false ->
        fig = go.Figure_ [] /\ go.layout fig = go.default_layout).
Proof.
  unfold plot_data, bind, lift, ret, st_error.
  destruct (py_eq pt "Line Plot"), (py_eq pt "Scatter Plot"); simpl;
    try (destruct (getitem data x_ax); [discriminate |];
         destruct (getitem data y_ax); [discriminate |]);
    intros H; injection H as <- _; split; intros; try discriminate; auto.
Qed.

Lemma plot_data_unsupported_mode_witness :
  py_eq (Some "Bar Plot") "Line Plot" = false
  /\ py_eq (Some "Bar Plot") "Scatter Plot" = false
  /\ plot_data frame_a (Some "t") (Some "v1") "a.csv - v1 vs t" (Some "Bar Plot") [] =
     (inr (go.Figure_ []), [] ++ [UnsupportedPlotType (py_str (Some "Bar Plot"))])%list
  /\ diag_text (UnsupportedPlotType (py_str (Some "Bar Plot")))
     = "Unsupported plot type: " ++ py_str (Some "Bar Plot")
  /\ (forall figs config,
        plot_type config = Some "Bar Plot" ->
        render_one figs config [] =
        (inr (figs ++ [go.Figure_ []]), [] ++ [UnsupportedPlotType (py_str (Some "Bar Plot"))])%list).
Proof.
  split; [reflexivity |]. split; [reflexivity |].
  apply (plot_data_unsupported_mode frame_a (Some "t") (Some "v1") "a.csv - v1 vs t"
           (Some "Bar Plot") []); reflexivity.
Defined.

Lemma plot_data_line_vs_scatter_witness :
  getitem frame_a (Some "t") = inr [SInt 0; SInt 1]
  /\ getitem frame_a (Some "v1") = inr [SInt 5; SInt 7]
  /\ exists lay,
    plot_data frame_a (Some "t") (Some "v1") "a.csv - v1 vs t" (Some "Line Plot") [] =
      (inr {| go.data := [{| go.x := [SInt 0; SInt 1]; go.y := [SInt 5; SInt 7];
                             go.mode := "lines" |}];
              go.layout := lay |}, [])
    /\ plot_data frame_a (Some "t") (Some "v1") "a.csv - v1 vs t" (Some "Scatter Plot") [] =
      (inr {| go.data := [{| go.x := [SInt 0; SInt 1]; go.y := [SInt 5; SInt 7];
                             go.mode := "markers" |}];
              go.layout := lay |}, [])
    /\ go.title lay = Some "a.csv - v1 vs t" /\ go.xaxis_title lay = Some "t"
    /\ go.yaxis_title lay = Some "v1" /\ has_dark_theme lay = true.
Proof.
  split; [reflexivity |]. split; [reflexivity |].
  apply (plot_data_line_vs_scatter frame_a (Some "t") (Some "v1") "a.csv - v1 vs t"
           [SInt 0; SInt 1] [SInt 5; SInt 7] []); reflexivity.
Defined.

Lemma plot_data_dark_theme_witness :
  exists fig log',
    plot_data frame_b (Some "t") (Some "v2") "b.csv - v2 vs t" (Some "Scatter Plot") [] =
      (inr fig, log')
    /\ (py_eq (Some "Scatter Plot") "Line Plot" || py_eq (Some "Scatter Plot") "Scatter Plot" = true ->
          has_dark_theme (go.layout fig) = true)
    /\ (py_eq (Some "Scatter Plot") "Line Plot" || py_eq (Some "Scatter Plot") "Scatter Plot" = false ->
          fig = go.Figure_ [] /\ go.layout fig = go.default_layout).
Proof.
  eexists. eexists. split; [reflexivity |].
  exact (plot_data_dark_theme frame_b (Some "t") (Some "v2") "b.csv - v2 vs t"
           (Some "Scatter Plot") [] _ _ eq_refl).
Defined.

(** ** Column index union *)

Lemma mem_In s l : mem s l = true <-> In s l.
Proof.
  unfold mem. rewrite existsb_exists. split.
  - intros [x [Hx Heq]]. apply String.eqb_eq in Heq. now subst.
  - intros H. exists s. split; [exact H | apply String.eqb_refl].
Qed.

Lemma list_eqb_eq l1 l2 : list_eqb l1 l2 = true -> l1 = l2.
Proof.
  revert l2; induction l1 as [| a l1 IH]; intros [| b l2]; simpl;
    try discriminate; [reflexivity |].
  intros H. apply andb_prop in H as [Hab Hl].
  apply String.eqb_eq in Hab. subst. f_equal. now apply IH.
Qed.

Lemma append_new_app acc xs ys :
  append_new acc (xs ++ ys) = append_new (append_new acc xs) ys.
Proof.
  revert acc; induction xs as [| x xs IH]; intros acc; simpl; [reflexivity |].
  destruct (mem x acc); apply IH.
Qed.

Lemma In_append_new y acc xs : In y (append_new acc xs) <-> In y acc \/ In y xs.
Proof.
  revert acc; induction xs as [| x xs IH]; intros acc; simpl.
  - tauto.
  - destruct (mem x acc) eqn:Hm.
    + rewrite IH. apply mem_In in Hm. split; [tauto |].
      intros [H | [-> | H]]; auto.
    + rewrite IH, in_app_iff. simpl. tauto.
Qed.

Lemma NoDup_append_new acc xs : NoDup acc -> NoDup (append_new acc xs).
Proof.
  revert acc; induction xs as [| x xs IH]; intros acc Hnd; simpl; [exact Hnd |].
  destruct (mem x acc) eqn:Hm; apply IH; [exact Hnd |].
  apply NoDup_app; [exact Hnd | repeat constructor; auto |].
  intros y Hy [<- | []]. apply not_true_iff_false in Hm. apply Hm, mem_In, Hy.
Qed.

Lemma append_new_seen acc xs :
  (forall x, In x xs -> In x acc) -> append_new acc xs = acc.
Proof.
  revert acc; induction xs as [| x xs IH]; intros acc Hin; simpl; [reflexivity |].
  assert (Hm : mem x acc = true) by (apply mem_In, Hin; now left).
  rewrite Hm. apply IH. intros y Hy. apply Hin. now right.
Qed.

Lemma append_new_nodup acc l : NoDup (acc ++ l) -> append_new acc l = (acc ++ l)%list.
Proof.
  revert acc; induction l as [| x l IH]; intros acc Hnd; simpl.
  - now rewrite app_nil_r.
  - assert (Hx : mem x acc = false).
    { apply not_true_iff_false. intros Hm. apply mem_In in Hm.
      apply (NoDup_remove_2 _ _ _ Hnd). now apply in_or_app; left. }
    rewrite Hx. rewrite IH; [now rewrite <- app_assoc |].
    now rewrite <- app_assoc.
Qed.

Lemma unique_nodup l : NoDup l -> unique l = l.
Proof. intros H. unfold unique. now apply append_new_nodup. Qed.

(** ** The Streamlit widget model *)

Lemma st_selectbox_contract session : selectbox_contract (st_selectbox session).
Proof.
  intros k opts. unfold st_selectbox.
  assert (Hhd : match hd_error opts with Some v => In v opts | None => opts = [] end)
    by (destruct opts; simpl; auto).
  destruct (find _ session) as [[e v] |]; [| exact Hhd].
  destruct (mem v opts) eqn:Hm; [now apply mem_In | exact Hhd].
Qed.

(** ** PlotConfigStore *)

Lemma build_configs_forall {A B} (step : A -> Py B) (P : B -> Prop) xs :
  forall acc log res log',
    (forall a l b l', step a l = (inr b, l') -> P b) ->
    (forall b, In b acc -> P b) ->
    for_each (fun acc a => b <- step a ;; ret (acc ++ [b])%list) xs acc log
      = (inr res, log') ->
    forall b, In b res -> P b.
Proof.
  induction xs as [| x xs IH]; intros acc log res log' Hstep Hacc Hrun.
  - simpl in Hrun. injection Hrun as <- _. exact Hacc.
  - rewrite for_each_cons in Hrun. unfold bind at 1 in Hrun.
    destruct (step x log) as [[e | b0] l1] eqn:Hs; [discriminate |].
    apply (IH (acc ++ [b0])%list l1 res log' Hstep); [| exact Hrun].
    intros b Hb. apply in_app_or in Hb as [Hb | [<- | []]];
      [now apply Hacc | exact (Hstep _ _ _ _ Hs)].
Qed.

Lemma build_config_result selectbox dataframes i log c log' :
  build_config selectbox dataframes i log = (inr c, log') ->
  (exists nm, file_name c = Some nm /\ dict_get nm dataframes = Some (df c))
  /\ x_axis c = selectbox ("x_axis", i) (df_columns (df c))
  /\ y_axis c = selectbox ("y_axis", i) (df_columns (df c))
  /\ title c = py_str (file_name c) ++ " - " ++ py_str (y_axis c)
               ++ " vs " ++ py_str (x_axis c).
Proof.
  unfold build_config, bind, lift, ret, getitem.
  destruct (selectbox ("file_name", i) (dict_keys dataframes)) as [nm |] eqn:Hf;
    [| discriminate].
  destruct (dict_get nm dataframes) as [d |] eqn:Hd; [| discriminate].
  intros H. injection H as <- _. simpl.
  split; [exists nm; auto |]. repeat split.
Qed.

(** A run of [main] that shows plots, taken apart. *)
Lemma main_shown_inv {Content} (read_csv read_excel : Content -> Exn + DataFrame)
    selectbox fs n clicked log cat cfgs figs log' :
  main read_csv read_excel selectbox fs n clicked log = (inr (Shown cat cfgs figs), log') ->
  exists dfs log1 log2,
    load_dataframes read_csv read_excel fs log = (inr dfs, log1)
    /\ pd_concat_columns (dict_values dfs) = inr cat
    /\ build_configs selectbox dfs n log1 = (inr cfgs, log2)
    /\ (if clicked then render_all cfgs log2 = (inr figs, log')
        else figs = [] /\ log' = log2).
Proof.
  destruct fs as [| f fs]; [discriminate |].
  unfold main, bind, lift, ret.
  destruct (load_dataframes read_csv read_excel (f :: fs) log) as [[e | dfs] log1] eqn:Hl;
    [discriminate |].
  destruct (pd_concat_columns (dict_values dfs)) as [e | cat0] eqn:Hc; [discriminate |].
  destruct (build_configs selectbox dfs n log1) as [[e | cfgs0] log2] eqn:Hb;
    [discriminate |].
  intros H. exists dfs, log1, log2.
  destruct clicked.
  - destruct (render_all cfgs0 log2) as [[e | figs0] log3] eqn:Hr; [discriminate |].
    injection H as <- <- <- <-. auto.
  - injection H as <- <- <- <-. repeat split; auto.
Qed.

Section MainClaims.

Variable Content : Type.
Variables read_csv read_excel : Content -> Exn + DataFrame.
Variable selectbox : (string * nat) -> list string -> option string.

(** Claim C3, corrected.  Every plot configuration of a run of [main] has
    a source that is a loaded dataset, and its X and Y selections are taken
    from widgets whose options are that source's columns, on every run, so
    a change of source never leaves a column of another dataset selected:
    whenever the source has at least one column, both selections are
    columns of it. *)
Theorem main_plot_columns_from_source fs n clicked log cat cfgs figs log' :
  selectbox_contract selectbox ->
  main read_csv read_excel selectbox fs n clicked log = (inr (Shown cat cfgs figs), log') ->
  exists dfs log1,
    load_dataframes read_csv read_excel fs log = (inr dfs, log1)
    /\ forall c, In c cfgs ->
      (exists nm, file_name c = Some nm /\ dict_get nm dfs = Some (df c))
      /\ (df_columns (df c) <> [] ->
          exists x y, x_axis c = Some x /\ y_axis c = Some y
                      /\ In x (df_columns (df c)) /\ In y (df_columns (df c))).
Proof.
  intros Hsb Hmain.
  apply main_shown_inv in Hmain as (dfs & log1 & log2 & Hl & _ & Hb & _).
  exists dfs, log1. split; [exact Hl |].
  unfold build_configs in Hb.
  refine (build_configs_forall (build_config selectbox dfs) _ _ [] log1 cfgs log2 _ _ Hb);
    [| intros _ []].
  intros i l c l' Hc. apply build_config_result in Hc as (Hf & Hx & Hy & _).
  split; [exact Hf |]. rewrite Hx, Hy.
  pose proof (Hsb ("x_axis", i) (df_columns (df c))) as Sx.
  pose proof (Hsb ("y_axis", i) (df_columns (df c))) as Sy.
  intros Hcols.
  destruct (selectbox ("x_axis", i) (df_columns (df c))) as [x |]; [| contradiction].
  destruct (selectbox ("y_axis", i) (df_columns (df c))) as [y |]; [| contradiction].
  eauto 7.
Qed.

(** Claim C6.  For a non-empty list of loaded DataFrames (each with
    distinct column names, as the pandas readers produce them), the column
    catalog [pd.concat(...).columns] is the union of their columns in
    first-seen order with duplicates collapsed: it has no duplicate, holds
    exactly the columns of the datasets, and grows by first occurrences
    only; building it again from the catalog gives the catalog back.  In
    [main] the rendered figures come from the loaded datasets and the
    selection widgets only: the catalog is not an input of the configuration
    or of the rendering. *)
Theorem catalog_first_seen_union frames :
  frames <> [] ->
  (forall f, In f frames -> NoDup (df_columns f)) ->
  pd_concat_columns frames = inr (unique (flat_map df_columns frames))
  /\ NoDup (unique (flat_map df_columns frames))
  /\ (forall c, In c (unique (flat_map df_columns frames)) <->
                exists f, In f frames /\ In c (df_columns f))
  /\ (forall l x, unique (l ++ [x]) = if mem x l then unique l else (unique l ++ [x])%list)
  /\ unique (unique (flat_map df_columns frames)) = unique (flat_map df_columns frames)
  /\ (forall fs n log cat cfgs figs log',
        main read_csv read_excel selectbox fs n true log = (inr (Shown cat cfgs figs), log') ->
        exists dfs log1 log2,
          load_dataframes read_csv read_excel fs log = (inr dfs, log1)
          /\ pd_concat_columns (dict_values dfs) = inr cat
          /\ build_configs selectbox dfs n log1 = (inr cfgs, log2)
          /\ render_all cfgs log2 = (inr figs, log')).
Proof.
  intros Hne Hnd.
  assert (Hnd' : NoDup (unique (flat_map df_columns frames)))
    by (apply NoDup_append_new, NoDup_nil).
  split; [| split; [exact Hnd' | split; [| split; [| split]]]].
  - destruct frames as [| f0 rest]; [contradiction |].
    unfold pd_concat_columns. simpl flat_map. unfold unique at 2.
    rewrite append_new_app.
    destruct (forallb _ rest) eqn:Hall.
    + fold (unique (df_columns f0)).
      rewrite unique_nodup by (apply Hnd; now left).
      rewrite append_new_seen; [reflexivity |].
      intros x Hx. apply in_flat_map in Hx as [f [Hf Hx]].
      rewrite forallb_forall in Hall. specialize (Hall f Hf).
      apply list_eqb_eq in Hall. now rewrite <- Hall.
    + reflexivity.
  - intros c. unfold unique. rewrite In_append_new, in_flat_map. simpl.
    split; [intros [[] | H]; exact H | now right].
  - intros l x. unfold unique. rewrite append_new_app. simpl.
    destruct (mem x (append_new [] l)) eqn:H1, (mem x l) eqn:H2; try reflexivity.
    + apply mem_In, In_append_new in H1 as [[] | H1].
      apply mem_In in H1. congruence.
    + apply mem_In in H2. apply not_true_iff_false in H1.
      exfalso. apply H1, mem_In, In_append_new. now right.
  - now apply unique_nodup.
  - intros fs n log cat cfgs figs log' Hmain.
    apply main_shown_inv in Hmain as (dfs & log1 & log2 & H1 & H2 & H3 & H4).
    exists dfs, log1, log2. auto.
Qed.

(** Claim C7.  The title of every plot configuration of a run of [main]
    is the f-string "{file_name} - {y_axis} vs {x_axis}" of that run's
    source, Y and X selections; it is computed from them on each run and is
    not an input of its own. *)
Theorem main_plot_titles_derived fs n clicked log cat cfgs figs log' :
  main read_csv read_excel selectbox fs n clicked log = (inr (Shown cat cfgs figs), log') ->
  forall c, In c cfgs ->
    title c = py_str (file_name c) ++ " - " ++ py_str (y_axis c) ++ " vs " ++ py_str (x_axis c).
Proof.
  intros Hmain.
  apply main_shown_inv in Hmain as (dfs & log1 & log2 & _ & _ & Hb & _).
  unfold build_configs in Hb.
  refine (build_configs_forall (build_config selectbox dfs) _ _ [] log1 cfgs log2 _ _ Hb);
    [| intros _ []].
  intros i l c l' Hc. now apply build_config_result in Hc as (_ & _ & _ & Ht).
Qed.

End MainClaims.

(** ** Counterexample and witnesses of the [main] claims *)

(** Claim C3, as stated, fails: with an uploaded Excel file whose sheet is
    empty, the only source has no column, both axis widgets return [None],
    and the configuration handed to the renderer names no column of its
    source; on "Generate Plots" [plot_data] then raises [KeyError]. *)
Lemma main_plot_column_missing_from_source :
  selectbox_contract (st_selectbox [])
  /\ main decode_as_given decode_as_given (st_selectbox [])
       [upload "empty.xlsx" (inr [])] 1 false [] =
     (inr (Shown [] [empty_sheet_config] []), [])
  /\ ~ (forall c, In c [empty_sheet_config] ->
          exists x y, x_axis c = Some x /\ y_axis c = Some y
                      /\ In x (df_columns (df c)) /\ In y (df_columns (df c)))
  /\ fst (main decode_as_given decode_as_given (st_selectbox [])
            [upload "empty.xlsx" (inr [])] 1 true []) = inl (KeyError None).
Proof.
  split; [apply st_selectbox_contract |].
  split; [reflexivity |].
  split; [| reflexivity].
  intros H. destruct (H empty_sheet_config (or_introl eq_refl)) as (x & y & Hx & _).
  discriminate Hx.
Qed.

Lemma main_plot_columns_from_source_witness :
  selectbox_contract (st_selectbox scenario_session)
  /\ exists cat cfgs figs log',
    main decode_as_given decode_as_given (st_selectbox scenario_session)
      scenario_uploads 2 true [] = (inr (Shown cat cfgs figs), log')
    /\ exists dfs log1,
      load_dataframes decode_as_given decode_as_given scenario_uploads [] = (inr dfs, log1)
      /\ forall c, In c cfgs ->
        (exists nm, file_name c = Some nm /\ dict_get nm dfs = Some (df c))
        /\ (df_columns (df c) <> [] ->
            exists x y, x_axis c = Some x /\ y_axis c = Some y
                        /\ In x (df_columns (df c)) /\ In y (df_columns (df c))).
Proof.
  split; [apply st_selectbox_contract |].
  do 4 eexists. split; [reflexivity |].
  exact (main_plot_columns_from_source _ decode_as_given decode_as_given
           (st_selectbox scenario_session) scenario_uploads 2 true [] _ _ _ _
           (st_selectbox_contract scenario_session) eq_refl).
Defined.

Lemma catalog_first_seen_union_witness :
  [frame_a; frame_b] <> []
  /\ (forall f, In f [frame_a; frame_b] -> NoDup (df_columns f))
  /\ pd_concat_columns [frame_a; frame_b] = inr ["t"; "v1"; "v2"]
  /\ pd_concat_columns [frame_a; frame_b] = inr (unique (flat_map df_columns [frame_a; frame_b]))
  /\ NoDup (unique (flat_map df_columns [frame_a; frame_b]))
  /\ (forall c, In c (unique (flat_map df_columns [frame_a; frame_b])) <->
                exists f, In f [frame_a; frame_b] /\ In c (df_columns f))
  /\ (forall l x, unique (l ++ [x]) = if mem x l then unique l else (unique l ++ [x])%list)
  /\ unique (unique (flat_map df_columns [frame_a; frame_b]))
     = unique (flat_map df_columns [frame_a; frame_b])
  /\ (forall fs n log cat cfgs figs log',
        main decode_as_given decode_as_given (st_selectbox scenario_session) fs n true log
          = (inr (Shown cat cfgs figs), log') ->
        exists dfs log1 log2,
          load_dataframes decode_as_given decode_as_given fs log = (inr dfs, log1)
          /\ pd_concat_columns (dict_values dfs) = inr cat
          /\ build_configs (st_selectbox scenario_session) dfs n log1 = (inr cfgs, log2)
          /\ render_all cfgs log2 = (inr figs, log')).
Proof.
  assert (Hne : [frame_a; frame_b] <> []) by discriminate.
  assert (Hnd : forall f, In f [frame_a; frame_b] -> NoDup (df_columns f)).
  { intros f [<- | [<- | []]]; simpl; repeat constructor; simpl; intuition discriminate. }
  split; [exact Hne |]. split; [exact Hnd |]. split; [reflexivity |].
  exact (catalog_first_seen_union _ decode_as_given decode_as_given
           (st_selectbox scenario_session) [frame_a; frame_b] Hne Hnd).
Defined.

Lemma main_plot_titles_derived_witness :
  exists cat cfgs figs log',
    main decode_as_given decode_as_given (st_selectbox scenario_session)
      scenario_uploads 2 true [] = (inr (Shown cat cfgs figs), log')
    /\ map title cfgs = ["a.csv - v1 vs t"; "b.csv - v2 vs t"]
    /\ length figs = 2
    /\ forall c, In c cfgs ->
         title c = py_str (file_name c) ++ " - " ++ py_str (y_axis c)
                   ++ " vs " ++ py_str (x_axis c).
Proof.
  do 4 eexists. split; [reflexivity |]. split; [reflexivity |]. split; [reflexivity |].
  exact (main_plot_titles_derived _ decode_as_given decode_as_given
           (st_selectbox scenario_session) scenario_uploads 2 true [] _ _ _ _ eq_refl).
Defined.

(** * Further properties of the code *)

(** ** Python dictionaries *)

Lemma dict_get_set {V} (k n : string) (v : V) (d : PyDict V) :
  dict_get n (dict_set k v d) = if String.eqb k n then Some v else dict_get n d.
Proof.
  induction d as [| [k' v'] d IH]; simpl.
  - destruct (String.eqb_spec n k), (String.eqb_spec k n); subst; congruence.
  - destruct (String.eqb_spec k k') as [-> | Hne]; simpl.
    + destruct (String.eqb_spec n k'), (String.eqb_spec k' n); subst; congruence.
    + rewrite IH. destruct (String.eqb_spec n k') as [-> | Hn']; [| reflexivity].
      destruct (String.eqb_spec k k'); [contradiction | reflexivity].
Qed.

Lemma In_dict_keys_set {V} (k n : string) (v : V) (d : PyDict V) :
  In n (dict_keys (dict_set k v d)) <-> n = k \/ In n (dict_keys d).
Proof.
  induction d as [| [k' v'] d IH]; simpl.
  - intuition.
  - destruct (String.eqb_spec k k') as [-> | Hne]; simpl; [intuition |].
    rewrite IH. intuition.
Qed.

Lemma NoDup_dict_keys_set {V} (k : string) (v : V) (d : PyDict V) :
  NoDup (dict_keys d) -> NoDup (dict_keys (dict_set k v d)).
Proof.
  induction d as [| [k' v'] d IH]; simpl; intros Hnd.
  - repeat constructor. intros [].
  - apply NoDup_cons_iff in Hnd as [Hk' Hnd].
    destruct (String.eqb_spec k k') as [-> | Hne]; simpl; constructor; auto.
    rewrite In_dict_keys_set. intros [-> | H]; [apply Hne; reflexivity | contradiction].
Qed.

(** ** Strings *)

Lemma string_length_app (p q : string) :
  String.length (p ++ q) = String.length p + String.length q.
Proof. induction p as [| c p IH]; simpl; [reflexivity | now rewrite IH]. Qed.

Lemma substring_after_prefix (p q : string) m :
  substring (String.length p) m (p ++ q) = substring 0 m q.
Proof. induction p as [| c p IH]; simpl; [reflexivity | exact IH]. Qed.

Lemma substring_whole (q : string) : substring 0 (String.length q) q = q.
Proof. induction q as [| c q IH]; simpl; [reflexivity | now rewrite IH]. Qed.

Lemma endswith_app (p q : string) : endswith (p ++ q) q = true.
Proof.
  unfold endswith. rewrite string_length_app.
  replace (String.length p + String.length q - String.length q)
    with (String.length p) by lia.
  rewrite substring_after_prefix, substring_whole, String.eqb_refl.
  rewrite andb_true_r. apply Nat.leb_le. lia.
Qed.

(** ** FileLoader, any uploads *)

Section LoaderExtra.

Variable Content : Type.
Variables read_csv read_excel : Content -> Exn + DataFrame.

Lemma load_loop_general fs :
  forall d log,
    exists d',
      for_each (load_one read_csv read_excel) fs d log =
        (inr d', log ++ failures read_csv read_excel fs)%list
      /\ (NoDup (dict_keys d) -> NoDup (dict_keys d'))
      /\ (forall n, In n (dict_keys d') <->
            In n (dict_keys d) \/
            exists f, In f fs /\ name f = n /\ loads_ok read_csv read_excel f = true)
      /\ (forall n, dict_get n d' =
            match last_decoded read_csv read_excel n fs with
            | Some v => Some v
            | None => dict_get n d
            end).
Proof.
  induction fs as [| f fs IH]; intros d log.
  - exists d. simpl. rewrite app_nil_r. repeat split; auto.
    + intros [H | [f [[] _]]]. exact H.
  - rewrite for_each_cons, load_one_cases.
    unfold failures; simpl; fold (failures read_csv read_excel fs).
    unfold loads_ok at 1.
    destruct (decoded read_csv read_excel f) as [[e | v] |] eqn:Hdec.
    + destruct (IH d (log ++ [ErrorLoading (name f) e])%list) as (d' & Hr & Hnd & Hin & Hget).
      exists d'. rewrite Hr, <- app_assoc. split; [reflexivity |]. split; [exact Hnd |].
      split.
      * intros n. rewrite Hin. split.
        -- intros [H | (g & Hg & Hn & Hok)]; [now left | right; exists g; auto].
        -- intros [H | (g & [<- | Hg] & Hn & Hok)]; [now left | | right; exists g; auto].
           unfold loads_ok in Hok. rewrite Hdec in Hok. discriminate.
      * intros n. rewrite Hget. destruct (last_decoded _ _ n fs); [reflexivity |].
        destruct (String.eqb (name f) n); reflexivity.
    + destruct (IH (dict_set (name f) v d) log) as (d' & Hr & Hnd & Hin & Hget).
      exists d'. rewrite Hr. split; [reflexivity |].
      split; [intros H; apply Hnd, NoDup_dict_keys_set, H |].
      split.
      * intros n. rewrite Hin, In_dict_keys_set. split.
        -- intros [[-> | H] | (g & Hg & Hn & Hok)].
           ++ right. exists f. unfold loads_ok. rewrite Hdec. auto.
           ++ now left.
           ++ right. exists g. auto.
        -- intros [H | (g & [<- | Hg] & Hn & Hok)].
           ++ left. now right.
           ++ left. now left.
           ++ right. exists g. auto.
      * intros n. rewrite Hget, dict_get_set.
        destruct (last_decoded _ _ n fs); [reflexivity |].
        destruct (String.eqb (name f) n); reflexivity.
    + destruct (IH d (log ++ [UnsupportedFileType (name f)])%list) as (d' & Hr & Hnd & Hin & Hget).
      exists d'. rewrite Hr, <- app_assoc. split; [reflexivity |]. split; [exact Hnd |].
      split.
      * intros n. rewrite Hin. split.
        -- intros [H | (g & Hg & Hn & Hok)]; [now left | right; exists g; auto].
        -- intros [H | (g & [<- | Hg] & Hn & Hok)]; [now left | | right; exists g; auto].
           unfold loads_ok in Hok. rewrite Hdec in Hok. discriminate.
      * intros n. rewrite Hget. destruct (last_decoded _ _ n fs); [reflexivity |].
        destruct (String.eqb (name f) n); reflexivity.
Qed.

Lemma failures_app (l1 l2 : list (UploadedFile Content)) :
  failures read_csv read_excel (l1 ++ l2) =
  (failures read_csv read_excel l1 ++ failures read_csv read_excel l2)%list.
Proof. unfold failures. apply flat_map_app. Qed.

Lemma failures_cons_loaded f fs d :
  decoded read_csv read_excel f = Some (inr d) ->
  failures read_csv read_excel (f :: fs) = failures read_csv read_excel fs.
Proof. intros H. unfold failures at 1. cbn [flat_map]. rewrite H. reflexivity. Qed.

Lemma successes_app (l1 l2 : list (UploadedFile Content)) :
  successes read_csv read_excel (l1 ++ l2) =
  (successes read_csv read_excel l1 ++ successes read_csv read_excel l2)%list.
Proof. unfold successes. apply flat_map_app. Qed.

Lemma successes_cons_loaded f fs d :
  decoded read_csv read_excel f = Some (inr d) ->
  successes read_csv read_excel (f :: fs) = (name f, d) :: successes read_csv read_excel fs.
Proof. intros H. unfold successes at 1. cbn [flat_map]. rewrite H. reflexivity. Qed.

Lemma successes_names fs g :
  In g fs -> loads_ok read_csv read_excel g = true ->
  In (name g) (dict_keys (successes read_csv read_excel fs)).
Proof.
  induction fs as [| f fs IH]; [intros [] |].
  intros [-> | Hg] Hok.
  - unfold loads_ok in Hok.
    destruct (decoded read_csv read_excel g) as [[e | d] |] eqn:Hdec; try discriminate.
    rewrite (successes_cons_loaded _ _ _ Hdec). now left.
  - unfold successes; cbn [flat_map].
    destruct (decoded read_csv read_excel f) as [[e | d] |];
      [exact (IH Hg Hok) | right; exact (IH Hg Hok) | exact (IH Hg Hok)].
Qed.

Lemma last_decoded_app n (l1 l2 : list (UploadedFile Content)) :
  last_decoded read_csv read_excel n (l1 ++ l2) =
  match last_decoded read_csv read_excel n l2 with
  | Some d => Some d
  | None => last_decoded read_csv read_excel n l1
  end.
Proof.
  induction l1 as [| f l1 IH]; simpl.
  - now destruct (last_decoded read_csv read_excel n l2).
  - rewrite IH. now destruct (last_decoded read_csv read_excel n l2).
Qed.

Lemma last_decoded_none n (l : list (UploadedFile Content)) :
  (forall g, In g l -> name g = n -> loads_ok read_csv read_excel g = false) ->
  last_decoded read_csv read_excel n l = None.
Proof.
  induction l as [| f l IH]; intros Hl; [reflexivity |]. simpl.
  rewrite IH by (intros g Hg; apply Hl; now right).
  destruct (String.eqb_spec (name f) n) as [Hn |]; [| reflexivity].
  assert (Hf := Hl f (or_introl eq_refl) Hn). unfold loads_ok in Hf.
  destruct (decoded read_csv read_excel f) as [[e | d] |]; congruence.
Qed.

Lemma In_drop_second (a b k : string) (l1 l2 l3 : list string) :
  a = b -> In k (l1 ++ a :: l2 ++ b :: l3) -> In k (l1 ++ a :: l2 ++ l3).
Proof.
  intros <- H. rewrite in_app_iff in *. simpl in *. rewrite in_app_iff in *.
  simpl in H. tauto.
Qed.

(** Claim C9.  Whatever the other uploads (before, between or after), when
    two files [f1] and then [f2] share a name, both decode, and no later file
    of that name decodes, [load_dataframes] keeps [f2]'s DataFrame under the
    name: [f1]'s is silently overwritten.  Neither file adds a diagnostic
    (the log grows only by the failures of the other files), and the
    mapping has fewer entries than there are decoded files. *)
Theorem load_dataframes_duplicate_name_last_wins pre f1 mid f2 post d1 d2 log :
  name f1 = name f2 ->
  decoded read_csv read_excel f1 = Some (inr d1) ->
  decoded read_csv read_excel f2 = Some (inr d2) ->
  (forall g, In g post -> name g = name f2 -> loads_ok read_csv read_excel g = false) ->
  exists dfs,
    load_dataframes read_csv read_excel (pre ++ f1 :: mid ++ f2 :: post) log =
      (inr dfs, log ++ failures read_csv read_excel pre
                    ++ failures read_csv read_excel mid
                    ++ failures read_csv read_excel post)%list
    /\ dict_get (name f2) dfs = Some d2
    /\ length (dict_keys dfs) <
       length (successes read_csv read_excel (pre ++ f1 :: mid ++ f2 :: post)).
Proof.
  intros Hn H1 H2 Hpost.
  destruct (load_loop_general (pre ++ f1 :: mid ++ f2 :: post) [] log)
    as (d' & Hr & Hnd & Hin & Hget).
  exists d'. split; [| split].
  - unfold load_dataframes. rewrite Hr.
    rewrite failures_app, (failures_cons_loaded _ _ _ H1), failures_app,
      (failures_cons_loaded _ _ _ H2). reflexivity.
  - rewrite Hget.
    replace (pre ++ f1 :: mid ++ f2 :: post)%list
      with ((pre ++ f1 :: mid) ++ f2 :: post)%list by (rewrite <- app_assoc; reflexivity).
    rewrite last_decoded_app. cbn [last_decoded].
    rewrite (last_decoded_none (name f2) post Hpost), String.eqb_refl, H2.
    reflexivity.
  - set (K := fun l => dict_keys (successes read_csv read_excel l)).
    assert (HK : dict_keys (successes read_csv read_excel (pre ++ f1 :: mid ++ f2 :: post))
                 = (K pre ++ name f1 :: K mid ++ name f2 :: K post)%list).
    { unfold K, dict_keys.
      rewrite successes_app, (successes_cons_loaded _ _ _ H1), successes_app,
        (successes_cons_loaded _ _ _ H2).
      rewrite map_app. simpl. rewrite map_app. reflexivity. }
    assert (Hincl : incl (dict_keys d') (K pre ++ name f1 :: K mid ++ K post)%list).
    { intros k Hk. apply Hin in Hk. destruct Hk as [[] | (g & Hg & <- & Hok)].
      apply (In_drop_second (name f1) (name f2)); [exact Hn |].
      rewrite <- HK. exact (successes_names _ _ Hg Hok). }
    assert (Hle := NoDup_incl_length (Hnd (NoDup_nil _)) Hincl).
    assert (Hlen : length (successes read_csv read_excel (pre ++ f1 :: mid ++ f2 :: post))
                   = length (K pre ++ name f1 :: K mid ++ name f2 :: K post)%list)
      by (rewrite <- HK; unfold dict_keys; now rewrite length_map).
    rewrite Hlen. clear - Hle. rewrite !length_app in *. cbn [length] in *.
    rewrite !length_app in *. cbn [length] in *. lia.
Qed.

(** [load_dataframes] never raises, whatever the uploads (duplicate names
    included): every decoder exception is caught, and the diagnostics it
    adds are exactly those of the failing files, in upload order. *)
Theorem load_dataframes_never_raises fs log :
  exists dfs,
    load_dataframes read_csv read_excel fs log =
    (inr dfs, log ++ failures read_csv read_excel fs)%list.
Proof.
  destruct (load_loop_general fs [] log) as (d' & Hr & _). now exists d'.
Qed.

(** The mapping returned by [load_dataframes] has no duplicate key; its
    keys are the names of the files that loaded, and each name maps to the
    DataFrame of the last file of that name that loaded. *)
Theorem load_dataframes_keys_and_lookup fs log :
  exists dfs log',
    load_dataframes read_csv read_excel fs log = (inr dfs, log')
    /\ NoDup (dict_keys dfs)
    /\ (forall n, In n (dict_keys dfs) <->
          exists f, In f fs /\ name f = n /\ loads_ok read_csv read_excel f = true)
    /\ (forall n, dict_get n dfs = last_decoded read_csv read_excel n fs).
Proof.
  destruct (load_loop_general fs [] log) as (d' & Hr & Hnd & Hin & Hget).
  exists d', (log ++ failures read_csv read_excel fs)%list.
  split; [exact Hr |]. split; [apply Hnd, NoDup_nil |]. split.
  - intros n. rewrite Hin. simpl. intuition.
  - intros n. rewrite Hget. now destruct (last_decoded _ _ n fs).
Qed.

(** A file whose name is some text followed by ".csv" is read with
    [pd.read_csv], even when the text itself ends with ".xlsx". *)
Theorem load_one_csv_suffix_uses_read_csv (p : string) (c : Content) d log :
  load_one read_csv read_excel d {| name := p ++ ".csv"; content := c |} log =
  match read_csv c with
  | inl e => (inr d, log ++ [ErrorLoading (p ++ ".csv") e])%list
  | inr df => (inr (dict_set (p ++ ".csv") df d), log)
  end.
Proof.
  rewrite load_one_cases. unfold decoded. simpl name. simpl content.
  rewrite endswith_app. destruct (read_csv c); reflexivity.
Qed.

End LoaderExtra.

(** ** Renderer, missing columns *)

Lemma getitem_has_column (d : DataFrame) k :
  match getitem d k with
  | inl e => has_column d k = false /\ e = KeyError k
  | inr _ => has_column d k = true
  end.
Proof.
  unfold getitem, has_column. destruct k as [k |]; [| auto].
  destruct (dict_get k d); auto.
Qed.

(** With "Line Plot" or "Scatter Plot", [plot_data] reads [data[x_axis]]
    before [data[y_axis]]: a missing X column raises [KeyError] on it, and
    with the X column present a missing Y column raises [KeyError] on that
    one; no figure is returned and no diagnostic is shown. *)
Theorem plot_data_missing_column_raises data x_ax y_ax t pt log :
  py_eq pt "Line Plot" || py_eq pt "Scatter Plot" = true ->
  (has_column data x_ax = false ->
     plot_data data x_ax y_ax t pt log = (inl (KeyError x_ax), log))
  /\ (has_column data x_ax = true -> has_column data y_ax = false ->
        plot_data data x_ax y_ax t pt log = (inl (KeyError y_ax), log)).
Proof.
  intros Hpt.
  pose proof (getitem_has_column data x_ax) as Gx.
  pose proof (getitem_has_column data y_ax) as Gy.
  assert (Hrun :
    plot_data data x_ax y_ax t pt log =
    match getitem data x_ax with
    | inl e => (inl e, log)
    | inr xs =>
        match getitem data y_ax with
        | inl e => (inl e, log)
        | inr ys => (inr (go.update_layout
             (go.Figure_ [{| go.x := xs; go.y := ys;
                             go.mode := if py_eq pt "Line Plot" then "lines" else "markers" |}])
             (Some t) x_ax y_ax (Some "#111111") (Some "#111111") (Some "#FFFFFF")
             {| go.gridcolor := Some "#4a4a4a"; go.zerolinecolor := Some "#4a4a4a" |}
             {| go.gridcolor := Some "#4a4a4a"; go.zerolinecolor := Some "#4a4a4a" |}), log)
        end
    end).
  { unfold plot_data, bind, lift, ret.
    destruct (py_eq pt "Line Plot"), (py_eq pt "Scatter Plot"); try discriminate;
      destruct (getitem data x_ax), (getitem data y_ax); reflexivity. }
  split.
  - intros Hx. rewrite Hrun.
    destruct (getitem data x_ax) as [e | xs]; [destruct Gx as [_ ->]; reflexivity |].
    congruence.
  - intros Hx Hy. rewrite Hrun.
    destruct (getitem data x_ax) as [e | xs]; [destruct Gx; congruence |].
    destruct (getitem data y_ax) as [e | ys]; [destruct Gy as [_ ->]; reflexivity |].
    congruence.
Qed.

(** ** PlotConfigStore and the render loop in [main] *)

Lemma for_each_log_unchanged {A S} (body : S -> A -> Py S) xs :
  forall s log r log',
    (forall s a l r l', In a xs -> body s a l = (r, l') -> l' = l) ->
    for_each body xs s log = (r, log') -> log' = log.
Proof.
  induction xs as [| x xs IH]; intros s log r log' Hb Hrun.
  - simpl in Hrun. now injection Hrun as _ <-.
  - rewrite for_each_cons in Hrun.
    destruct (body s x log) as [[e | s'] l1] eqn:Hs.
    + injection Hrun as _ <-. exact (Hb _ _ _ _ _ (or_introl eq_refl) Hs).
    + apply IH in Hrun; [| intros; eapply Hb; [right |]; eassumption].
      rewrite Hrun. exact (Hb _ _ _ _ _ (or_introl eq_refl) Hs).
Qed.

Lemma for_each_length {A B} (body : list B -> A -> Py (list B)) xs :
  forall acc log res log',
    (forall acc a l acc' l', body acc a l = (inr acc', l') -> length acc' = S (length acc)) ->
    for_each body xs acc log = (inr res, log') -> length res = length acc + length xs.
Proof.
  induction xs as [| x xs IH]; intros acc log res log' Hb Hrun.
  - simpl in Hrun. injection Hrun as <- _. simpl. lia.
  - rewrite for_each_cons in Hrun.
    destruct (body acc x log) as [[e | acc'] l1] eqn:Hs; [discriminate |].
    apply IH in Hrun; [| exact Hb]. apply Hb in Hs. simpl. lia.
Qed.

Lemma build_config_log selectbox dataframes i log r log' :
  build_config selectbox dataframes i log = (r, log') -> log' = log.
Proof.
  unfold build_config, bind, lift, ret.
  destruct (getitem dataframes _); intros H; now injection H as _ <-.
Qed.

Lemma build_config_plot_type selectbox dataframes i log c log' :
  build_config selectbox dataframes i log = (inr c, log') ->
  plot_type c = selectbox ("plot_type", i) ["Line Plot"; "Scatter Plot"].
Proof.
  unfold build_config, bind, lift, ret.
  destruct (getitem dataframes _); intros H; [discriminate |].
  now injection H as <- _.
Qed.

Section MainExtra.

Variable Content : Type.
Variables read_csv read_excel : Content -> Exn + DataFrame.
Variable selectbox : (string * nat) -> list string -> option string.

(** A run of [main] that shows plots has exactly [num_plots]
    configurations; it renders one figure per configuration when "Generate
    Plots" was clicked and no figure otherwise. *)
Theorem main_one_config_per_slot fs n clicked log cat cfgs figs log' :
  main read_csv read_excel selectbox fs n clicked log = (inr (Shown cat cfgs figs), log') ->
  length cfgs = n /\ (if clicked then length figs = n else figs = []).
Proof.
  intros Hmain.
  apply main_shown_inv in Hmain as (dfs & log1 & log2 & _ & _ & Hb & Hr).
  assert (Hc : length cfgs = n).
  { unfold build_configs in Hb. apply for_each_length in Hb.
    - rewrite length_seq in Hb. exact Hb.
    - intros acc a l acc' l' Hs. unfold bind, ret in Hs.
      destruct (build_config selectbox dfs a l) as [[e | c] l1]; [discriminate |].
      injection Hs as <- _. rewrite length_app. simpl. lia. }
  split; [exact Hc |]. destruct clicked; [| exact (proj1 Hr)].
  unfold render_all in Hr. apply for_each_length in Hr.
  - simpl in Hr. lia.
  - intros acc a l acc' l' Hs. unfold render_one, bind, ret in Hs.
    destruct (plot_data _ _ _ _ _ l) as [[e | fig] l1]; [discriminate |].
    injection Hs as <- _. rewrite length_app. simpl. lia.
Qed.

(** With Streamlit's [selectbox], the plot type of every configuration is
    "Line Plot" or "Scatter Plot", so the "Unsupported plot type" branch of
    [plot_data] is never reached from [main]: a run that shows plots adds
    to the log only the diagnostics of [load_dataframes]. *)
Theorem main_diagnostics_only_from_loader fs n clicked log cat cfgs figs log' :
  selectbox_contract selectbox ->
  main read_csv read_excel selectbox fs n clicked log = (inr (Shown cat cfgs figs), log') ->
  (forall c, In c cfgs ->
     plot_type c = Some "Line Plot" \/ plot_type c = Some "Scatter Plot")
  /\ exists dfs, load_dataframes read_csv read_excel fs log = (inr dfs, log').
Proof.
  intros Hsb Hmain.
  apply main_shown_inv in Hmain as (dfs & log1 & log2 & Hl & _ & Hb & Hr).
  assert (Hpt : forall c, In c cfgs ->
            plot_type c = Some "Line Plot" \/ plot_type c = Some "Scatter Plot").
  { unfold build_configs in Hb.
    refine (build_configs_forall (build_config selectbox dfs) _ _ [] log1 cfgs log2 _ _ Hb);
      [| intros _ []].
    intros i l c l' Hc. apply build_config_plot_type in Hc. rewrite Hc.
    pose proof (Hsb ("plot_type", i) ["Line Plot"; "Scatter Plot"]) as S.
    destruct (selectbox ("plot_type", i) _) as [v |]; [| discriminate].
    destruct S as [<- | [<- | []]]; auto. }
  split; [exact Hpt |]. exists dfs.
  assert (H2 : log2 = log1).
  { unfold build_configs in Hb. apply for_each_log_unchanged in Hb; [exact Hb |].
    intros s a l r l' _ H. unfold bind in H.
    destruct (build_config selectbox dfs a l) as [[e | c] l1] eqn:Hc;
      unfold ret in H; injection H as _ <-; exact (build_config_log _ _ _ _ _ _ Hc). }
  rewrite Hl. f_equal. destruct clicked; [| destruct Hr as [_ ->]; now rewrite H2].
  unfold render_all in Hr. apply for_each_log_unchanged in Hr; [now rewrite Hr, H2 |].
  intros s c l r l' Hin Hs. unfold render_one, bind, ret in Hs.
  unfold plot_data, bind, lift, ret, st_error in Hs.
  destruct (Hpt c Hin) as [Ht | Ht]; rewrite Ht in Hs; simpl in Hs;
    destruct (getitem (df c) (x_axis c)), (getitem (df c) (y_axis c));
    now injection Hs as _ <-.
Qed.

End MainExtra.

(** ** The real-time plotting script *)

Module RealTimeProofs.

Import RealTime.

Lemma tail_slice_suffix {A} (l : list A) n :
  l = (firstn (length l - n) l ++ tail_slice n l)%list
  /\ length (tail_slice n l) = Nat.min n (length l).
Proof.
  unfold tail_slice. split; [symmetry; apply firstn_skipn |].
  rewrite length_skipn. lia.
Qed.

Lemma length_concat_repeat {A} (l : list A) k :
  length (concat (repeat l k)) = k * length l.
Proof.
  induction k as [| k IH]; [reflexivity |].
  cbn [repeat concat]. rewrite length_app, IH. lia.
Qed.

Lemma read_new_data_frame d ts vs log :
  getitem d (Some "timestamp") = inr ts -> getitem d (Some "value") = inr vs ->
  read_new_data (ReadFrame d) log = (inr (tail_slice 10 ts, tail_slice 10 vs), log).
Proof. intros Ht Hv. unfold read_new_data, bind, lift, ret. now rewrite Ht, Hv. Qed.

Lemma update_plot_frame i s d ts vs log :
  getitem d (Some "timestamp") = inr ts -> getitem d (Some "value") = inr vs ->
  update_plot i (ReadFrame d) s log =
  (inr {| x_data := (x_data s ++ tail_slice 10 ts)%list;
          y_data := (y_data s ++ tail_slice 10 vs)%list;
          ax := {| lines := [((x_data s ++ tail_slice 10 ts)%list,
                              (y_data s ++ tail_slice 10 vs)%list)];
                   xlabel := "Timestamp"; ylabel := "Value";
                   ax_title := "Real-time Data Plot" |} |}, log).
Proof.
  intros Ht Hv. unfold update_plot, bind at 1.
  rewrite (read_new_data_frame d ts vs log Ht Hv). reflexivity.
Qed.

(** [read_new_data] on a CSV with [timestamp] and [value] columns returns
    the last ten entries of each column (all of them when there are fewer
    than ten), in row order. *)
Theorem read_new_data_last_ten d ts vs log :
  getitem d (Some "timestamp") = inr ts -> getitem d (Some "value") = inr vs ->
  exists pt pv,
    read_new_data (ReadFrame d) log = (inr (tail_slice 10 ts, tail_slice 10 vs), log)
    /\ ts = (pt ++ tail_slice 10 ts)%list /\ vs = (pv ++ tail_slice 10 vs)%list
    /\ length (tail_slice 10 ts) = Nat.min 10 (length ts)
    /\ length (tail_slice 10 vs) = Nat.min 10 (length vs).
Proof.
  intros Ht Hv.
  destruct (tail_slice_suffix ts 10) as [Hts Hlt].
  destruct (tail_slice_suffix vs 10) as [Hvs Hlv].
  eexists. eexists. split; [exact (read_new_data_frame d ts vs log Ht Hv) |].
  split; [exact Hts |]. split; [exact Hvs |]. auto.
Qed.

(** [update_plot] tolerates only a missing file: the shared lists are
    then unchanged and redrawn as the one line of the axes.  Any other read
    failure propagates out of the callback, a missing [timestamp] column
    (checked first) or [value] column as [KeyError], before the lists are
    extended. *)
Theorem update_plot_read_failures i s d e log :
  (exists s', update_plot i FileNotFoundError s log = (inr s', log)
     /\ x_data s' = x_data s /\ y_data s' = y_data s
     /\ lines (ax s') = [(x_data s, y_data s)])
  /\ update_plot i (ReadRaised e) s log = (inl e, log)
  /\ (has_column d (Some "timestamp") = false ->
        update_plot i (ReadFrame d) s log = (inl (KeyError (Some "timestamp")), log))
  /\ (has_column d (Some "timestamp") = true -> has_column d (Some "value") = false ->
        update_plot i (ReadFrame d) s log = (inl (KeyError (Some "value")), log)).
Proof.
  split; [| split; [reflexivity |]].
  - eexists. split; [reflexivity |]. simpl. now rewrite !app_nil_r.
  - pose proof (getitem_has_column d (Some "timestamp")) as Gt.
    pose proof (getitem_has_column d (Some "value")) as Gv.
    unfold update_plot, read_new_data, bind, lift, ret.
    split.
    + intros Ht. destruct (getitem d (Some "timestamp")) as [e' | ts];
        [destruct Gt as [_ ->]; reflexivity | congruence].
    + intros Ht Hv. destruct (getitem d (Some "timestamp")) as [e' | ts];
        [destruct Gt; congruence |].
      destruct (getitem d (Some "value")) as [e' | vs];
        [destruct Gv as [_ ->]; reflexivity | congruence].
Qed.

(** One frame on a CSV with both columns appends the last ten timestamps
    and values to the shared lists and leaves the axes with a single line,
    the whole accumulated data, labelled "Timestamp" / "Value" under the
    title "Real-time Data Plot". *)
Theorem update_plot_extends i s d ts vs log :
  getitem d (Some "timestamp") = inr ts -> getitem d (Some "value") = inr vs ->
  exists s',
    update_plot i (ReadFrame d) s log = (inr s', log)
    /\ x_data s' = (x_data s ++ tail_slice 10 ts)%list
    /\ y_data s' = (y_data s ++ tail_slice 10 vs)%list
    /\ lines (ax s') = [(x_data s', y_data s')]
    /\ xlabel (ax s') = "Timestamp" /\ ylabel (ax s') = "Value"
    /\ ax_title (ax s') = "Real-time Data Plot".
Proof.
  intros Ht Hv. rewrite (update_plot_frame i s d ts vs log Ht Hv).
  eexists. split; [reflexivity |]. simpl. repeat split.
Qed.

(** The file is re-read whole on every frame: over [k] frames on an
    unchanged CSV, the same last ten points are appended [k] times, so the
    shared lists grow by [k * min 10 rows] entries with repeated points. *)
Theorem animate_unchanged_file_repeats k i s d ts vs log :
  getitem d (Some "timestamp") = inr ts -> getitem d (Some "value") = inr vs ->
  exists s',
    animate i (repeat (ReadFrame d) k) s log = (inr s', log)
    /\ x_data s' = (x_data s ++ concat (repeat (tail_slice 10 ts) k))%list
    /\ y_data s' = (y_data s ++ concat (repeat (tail_slice 10 vs) k))%list
    /\ length (x_data s') = length (x_data s) + k * Nat.min 10 (length ts).
Proof.
  intros Ht Hv. revert i s.
  induction k as [| k IH]; intros i s.
  - exists s. simpl. rewrite !app_nil_r. repeat split. lia.
  - simpl animate. unfold bind at 1. rewrite (update_plot_frame i s d ts vs log Ht Hv).
    cbv beta iota.
    match goal with |- context [animate (S i) _ ?s1 log] =>
      destruct (IH (S i) s1) as (s' & Hr & Hx & Hy & _) end.
    exists s'. rewrite Hr. cbn [x_data y_data] in Hx, Hy |- *.
    rewrite Hx, Hy, <- !app_assoc. split; [reflexivity |].
    split; [reflexivity |]. split; [reflexivity |].
    rewrite !length_app, length_concat_repeat.
    destruct (tail_slice_suffix ts 10) as [_ Hl]. rewrite Hl. lia.
Qed.

(** When every frame finds either no file or a CSV whose [timestamp] and
    [value] columns have the same length (as the columns of a DataFrame
    do), [x_data] and [y_data] keep the same length over the whole
    animation, and after at least one frame the axes show exactly one
    line: the two shared lists. *)
Theorem animate_keeps_lengths_equal reads i s log :
  length (x_data s) = length (y_data s) ->
  (forall r, In r reads ->
     r = FileNotFoundError
     \/ exists d ts vs, r = ReadFrame d
          /\ getitem d (Some "timestamp") = inr ts
          /\ getitem d (Some "value") = inr vs
          /\ length ts = length vs) ->
  exists s',
    animate i reads s log = (inr s', log)
    /\ length (x_data s') = length (y_data s')
    /\ (reads <> [] -> lines (ax s') = [(x_data s', y_data s')]).
Proof.
  revert i s. induction reads as [| r reads IH]; intros i s Hlen Hr.
  - exists s. split; [reflexivity |]. split; [exact Hlen | now intros []].
  - assert (Hstep : exists s1, update_plot i r s log = (inr s1, log)
              /\ length (x_data s1) = length (y_data s1)
              /\ lines (ax s1) = [(x_data s1, y_data s1)]).
    { destruct (Hr r (or_introl eq_refl)) as [-> | (d & ts & vs & -> & Ht & Hv & Hl)].
      - eexists. split; [reflexivity |]. simpl. rewrite !app_nil_r. auto.
      - rewrite (update_plot_frame i s d ts vs log Ht Hv).
        eexists. split; [reflexivity |]. simpl. split; [| reflexivity].
        rewrite !length_app, Hlen.
        destruct (tail_slice_suffix ts 10) as [_ Hlt].
        destruct (tail_slice_suffix vs 10) as [_ Hlv]. rewrite Hlt, Hlv, Hl. reflexivity. }
    destruct Hstep as (s1 & Hs1 & Hlen1 & Hlines1).
    destruct (IH (S i) s1 Hlen1 (fun r' H => Hr r' (or_intror H))) as (s' & Hrun & Hlen' & Hl').
    exists s'. simpl animate. unfold bind at 1. rewrite Hs1, Hrun.
    split; [reflexivity |]. split; [exact Hlen' |]. intros _.
    destruct reads as [| r' reads'].
    + simpl in Hrun. injection Hrun as <-. exact Hlines1.
    + apply Hl'. discriminate.
Qed.

Lemma read_new_data_last_ten_witness :
  exists pt pv,
    read_new_data (ReadFrame sensor_log) [] =
      (inr (tail_slice 10 (map (fun k => SInt (Z.of_nat k)) (seq 0 12)),
            tail_slice 10 (map (fun k => SInt (Z.of_nat (k * k))) (seq 0 12))), [])
    /\ map (fun k => SInt (Z.of_nat k)) (seq 0 12)
       = (pt ++ tail_slice 10 (map (fun k => SInt (Z.of_nat k)) (seq 0 12)))%list
    /\ map (fun k => SInt (Z.of_nat (k * k))) (seq 0 12)
       = (pv ++ tail_slice 10 (map (fun k => SInt (Z.of_nat (k * k))) (seq 0 12)))%list
    /\ length (tail_slice 10 (map (fun k => SInt (Z.of_nat k)) (seq 0 12)))
       = Nat.min 10 (length (map (fun k => SInt (Z.of_nat k)) (seq 0 12)))
    /\ length (tail_slice 10 (map (fun k => SInt (Z.of_nat (k * k))) (seq 0 12)))
       = Nat.min 10 (length (map (fun k => SInt (Z.of_nat (k * k))) (seq 0 12))).
Proof.
  apply (read_new_data_last_ten sensor_log); reflexivity.
Defined.

Lemma update_plot_read_failures_witness :
  (exists s', update_plot 0 FileNotFoundError app_init [] = (inr s', [])
     /\ x_data s' = x_data app_init /\ y_data s' = y_data app_init
     /\ lines (ax s') = [(x_data app_init, y_data app_init)])
  /\ update_plot 0 (ReadRaised (ParserError "Error tokenizing data")) app_init [] =
     (inl (ParserError "Error tokenizing data"), [])
  /\ (has_column [("value", [])] (Some "timestamp") = false ->
        update_plot 0 (ReadFrame [("value", [])]) app_init [] =
        (inl (KeyError (Some "timestamp")), []))
  /\ (has_column [("value", [])] (Some "timestamp") = true ->
      has_column [("value", [])] (Some "value") = false ->
        update_plot 0 (ReadFrame [("value", [])]) app_init [] =
        (inl (KeyError (Some "value")), [])).
Proof. exact (update_plot_read_failures 0 app_init [("value", [])] _ []). Defined.

Lemma update_plot_extends_witness :
  exists s',
    update_plot 0 (ReadFrame sensor_log) app_init [] = (inr s', [])
    /\ x_data s' = (x_data app_init ++ tail_slice 10 (map (fun k => SInt (Z.of_nat k)) (seq 0 12)))%list
    /\ y_data s' = (y_data app_init ++ tail_slice 10 (map (fun k => SInt (Z.of_nat (k * k))) (seq 0 12)))%list
    /\ lines (ax s') = [(x_data s', y_data s')]
    /\ xlabel (ax s') = "Timestamp" /\ ylabel (ax s') = "Value"
    /\ ax_title (ax s') = "Real-time Data Plot".
Proof. apply (update_plot_extends 0 app_init sensor_log); reflexivity. Defined.

Lemma animate_unchanged_file_repeats_witness :
  exists s',
    animate 0 (repeat (ReadFrame sensor_log) 3) app_init [] = (inr s', [])
    /\ x_data s' = (x_data app_init ++ concat (repeat (tail_slice 10 (map (fun k => SInt (Z.of_nat k)) (seq 0 12))) 3))%list
    /\ y_data s' = (y_data app_init ++ concat (repeat (tail_slice 10 (map (fun k => SInt (Z.of_nat (k * k))) (seq 0 12))) 3))%list
    /\ length (x_data s') = length (x_data app_init)
                            + 3 * Nat.min 10 (length (map (fun k => SInt (Z.of_nat k)) (seq 0 12))).
Proof. apply (animate_unchanged_file_repeats 3 0 app_init sensor_log); reflexivity. Defined.

Lemma animate_keeps_lengths_equal_witness :
  exists s',
    animate 0 [ReadFrame sensor_log; FileNotFoundError; ReadFrame sensor_log] app_init [] = (inr s', [])
    /\ length (x_data s') = length (y_data s')
    /\ ([ReadFrame sensor_log; FileNotFoundError; ReadFrame sensor_log] <> [] ->
        lines (ax s') = [(x_data s', y_data s')]).
Proof.
  apply animate_keeps_lengths_equal; [reflexivity |].
  intros r Hr. simpl in Hr.
  destruct Hr as [<- | [<- | [<- | []]]];
    [| left; reflexivity |];
    right; exists sensor_log; do 2 eexists; repeat split.
Defined.

End RealTimeProofs.

(** ** Witnesses of the further [app.py] properties *)

Lemma plot_data_missing_column_raises_witness :
  (has_column frame_a (Some "speed") = false ->
     plot_data frame_a (Some "speed") (Some "v1") "a.csv - v1 vs speed" (Some "Line Plot") []
     = (inl (KeyError (Some "speed")), []))
  /\ (has_column frame_a (Some "speed") = true -> has_column frame_a (Some "v1") = false ->
        plot_data frame_a (Some "speed") (Some "v1") "a.csv - v1 vs speed" (Some "Line Plot") []
        = (inl (KeyError (Some "v1")), [])).
Proof. apply plot_data_missing_column_raises. reflexivity. Defined.

Lemma main_one_config_per_slot_witness :
  exists cat cfgs figs log',
    main decode_as_given decode_as_given (st_selectbox scenario_session)
      scenario_uploads 3 true [] = (inr (Shown cat cfgs figs), log')
    /\ length cfgs = 3 /\ length figs = 3.
Proof.
  do 4 eexists. split; [reflexivity |].
  exact (main_one_config_per_slot _ decode_as_given decode_as_given
           (st_selectbox scenario_session) scenario_uploads 3 true [] _ _ _ _ eq_refl).
Defined.

Lemma main_diagnostics_only_from_loader_witness :
  exists cat cfgs figs log',
    main decode_as_given decode_as_given (st_selectbox scenario_session)
      (scenario_uploads ++ [upload "notes.txt" (inr frame_a)])%list 2 true []
      = (inr (Shown cat cfgs figs), log')
    /\ (forall c, In c cfgs ->
          plot_type c = Some "Line Plot" \/ plot_type c = Some "Scatter Plot")
    /\ exists dfs, load_dataframes decode_as_given decode_as_given
                     (scenario_uploads ++ [upload "notes.txt" (inr frame_a)])%list []
                   = (inr dfs, log').
Proof.
  do 4 eexists. split; [reflexivity |].
  exact (main_diagnostics_only_from_loader _ decode_as_given decode_as_given
           (st_selectbox scenario_session)
           (scenario_uploads ++ [upload "notes.txt" (inr frame_a)])%list 2 true [] _ _ _ _
           (st_selectbox_contract scenario_session) eq_refl).
Defined.

(** ** Witness of the duplicate-name property on concrete uploads *)

Lemma load_dataframes_duplicate_name_last_wins_witness :
  exists dfs,
    load_dataframes decode_as_given decode_as_given
      ([upload "a.csv" (inr frame_a)]
       ++ upload "log.csv" (inr frame_a)
       :: [upload "b.xlsx" (inl (ValueError "Excel file format cannot be determined"))]
       ++ upload "log.csv" (inr frame_b)
       :: [upload "log.csv" (inl (ParserError "No columns to parse from file"))])%list [] =
      (inr dfs, []
         ++ failures decode_as_given decode_as_given [upload "a.csv" (inr frame_a)]
         ++ failures decode_as_given decode_as_given
              [upload "b.xlsx" (inl (ValueError "Excel file format cannot be determined"))]
         ++ failures decode_as_given decode_as_given
              [upload "log.csv" (inl (ParserError "No columns to parse from file"))])%list
    /\ dict_get (name (upload "log.csv" (inr frame_b))) dfs = Some frame_b
    /\ length (dict_keys dfs) <
       length (successes decode_as_given decode_as_given
         ([upload "a.csv" (inr frame_a)]
          ++ upload "log.csv" (inr frame_a)
          :: [upload "b.xlsx" (inl (ValueError "Excel file format cannot be determined"))]
          ++ upload "log.csv" (inr frame_b)
          :: [upload "log.csv" (inl (ParserError "No columns to parse from file"))])%list).
Proof.
  apply (load_dataframes_duplicate_name_last_wins _ decode_as_given decode_as_given
           [upload "a.csv" (inr frame_a)] (upload "log.csv" (inr frame_a))
           [upload "b.xlsx" (inl (ValueError "Excel file format cannot be determined"))]
           (upload "log.csv" (inr frame_b))
           [upload "log.csv" (inl (ParserError "No columns to parse from file"))]
           frame_a frame_b []); [reflexivity | reflexivity | reflexivity |].
  intros g [<- | []] _. reflexivity.
Defined.
